(** * Live transcription session manager of the voice-dictation backend

    A shallow embedding of [deepgram_service.py] (class [DeepgramService])
    and of the Socket.IO handlers and the summary generator of
    [flaskapp5.py].

    Conventions of the model.
    - A Python [str] the program is given (a transcript, a reply of the
      model, a payload field) is a Rocq [string]: a sequence of code points
      below 256. A [str] decoded from JSON, where an escape can denote any
      code point, is a [pystr], the list of its code points.
    - The module-level dict [active_transcriptions] is a [gmap] from the
      connection identifier ([request.sid]) to the session dict.
    - [DeepgramService] objects live in an object store indexed by address:
      the session dict and the upstream callbacks registered by
      [start_transcription] refer to the same object.
    - What the external collaborators answer (environment variables, the
      Deepgram SDK, the Gemini API, the file system, the clock) is an
      explicit argument of the handler that consults them.
    - A worker thread is run to completion at the point where the handler
      starts it (one of the schedules the source allows); an exception that
      escapes the thread ends the thread and does not reach the handler.
    - [request.sid] is the identifier of the connection whose event is being
      handled. It exists only inside the handler itself: read in a worker
      thread or on the event loop of the SDK, where no request context is
      pushed, it raises [RuntimeError]. *)

From stdpp Require Import gmap strings list fin_maps.
From Stdlib Require Import ZArith Ascii String.

Local Open Scope string_scope.
Local Open Scope list_scope.

(** ** Python string operations *)

Module PyStr.

(** Position of the first occurrence of [c], as [str.index] would give. *)
Fixpoint index_of (c : ascii) (s : string) : option nat :=
  match s with
  | EmptyString => None
  | String a r => if Ascii.eqb a c then Some 0 else S <$> index_of c r
  end.

(** Position of the last occurrence of [c]. *)
Fixpoint rindex_of (c : ascii) (s : string) : option nat :=
  match s with
  | EmptyString => None
  | String a r =>
      match rindex_of c r with
      | Some i => Some (S i)
      | None => if Ascii.eqb a c then Some 0 else None
      end
  end.

(** [s.find(c)] and [s.rfind(c)]: the index, or -1. *)
Definition find (c : ascii) (s : string) : Z :=
  match index_of c s with Some i => Z.of_nat i | None => (-1)%Z end.

Definition rfind (c : ascii) (s : string) : Z :=
  match rindex_of c s with Some i => Z.of_nat i | None => (-1)%Z end.

(** A slice bound as Python normalises it against the length. *)
Definition clamp (len i : Z) : Z :=
  if (i <? 0)%Z then Z.max 0 (i + len) else Z.min i len.

(** [s[i:j]]. *)
Definition slice (s : string) (i j : Z) : string :=
  let len := Z.of_nat (String.length s) in
  let lo := clamp len i in
  let hi := clamp len j in
  substring (Z.to_nat lo) (Z.to_nat (hi - lo)) s.

(** [str.isspace] on one code point below 256. *)
Definition isspace (c : ascii) : bool :=
  let n := N_of_ascii c in
  ((9 <=? n) && (n <=? 13) || (28 <=? n) && (n <=? 32)
   || (n =? 133) || (n =? 160))%N.

Fixpoint lstrip (s : string) : string :=
  match s with
  | EmptyString => EmptyString
  | String c r => if isspace c then lstrip r else s
  end.

Fixpoint rstrip (s : string) : string :=
  match s with
  | EmptyString => EmptyString
  | String c r =>
      match rstrip r with
      | EmptyString => if isspace c then EmptyString else String c EmptyString
      | r' => String c r'
      end
  end.

(** [s.strip()]. *)
Definition strip (s : string) : string := rstrip (lstrip s).

(** Truth value of a [str]: [not s] holds of the empty string only. *)
Definition truthy (s : string) : bool :=
  match s with EmptyString => false | _ => true end.

End PyStr.

(** ** JSON values and [json.loads] *)

(** A [str] as the list of its code points. *)
Definition pystr : Type := list N.

Definition of_string (s : string) : pystr :=
  N_of_ascii <$> list_ascii_of_string s.

Coercion of_string : string >-> pystr.

(** The type expected of a pair or a list is known before its components
    are read, so that a [string] written as a key is taken as a [pystr]. *)
#[local] Arguments pair {_ _} & _ _.
#[local] Arguments cons {_} & _ _.

(** A number is kept as its literal. *)
#[warnings="-register-all"]
Inductive json : Type :=
| JNull
| JBool (b : bool)
| JNumber (literal : string)
| JString (s : pystr)
| JArray (items : list json)
| JObject (members : list (pystr * json)).

Module Json.

(** [d[k] = v] on a dict kept in insertion order. *)
Fixpoint dict_set (k : pystr) (v : json) (d : list (pystr * json))
  : list (pystr * json) :=
  match d with
  | [] => [(k, v)]
  | (k', v') :: r =>
      if bool_decide (k' = k) then (k', v) :: r else (k', v') :: dict_set k v r
  end.

Fixpoint dict_get (k : pystr) (d : list (pystr * json)) : option json :=
  match d with
  | [] => None
  | (k', v) :: r => if bool_decide (k' = k) then Some v else dict_get k r
  end.

Definition quote : ascii := "034"%char.
Definition backslash : ascii := "092"%char.

Definition is_ws (c : ascii) : bool :=
  let n := N_of_ascii c in ((n =? 32) || (n =? 9) || (n =? 10) || (n =? 13))%N.

Fixpoint skip_ws (s : string) : string :=
  match s with
  | String c r => if is_ws c then skip_ws r else s
  | EmptyString => s
  end.

Definition is_digit (c : ascii) : bool :=
  let n := N_of_ascii c in ((48 <=? n) && (n <=? 57))%N.

(** The longest prefix of digits and what follows it. *)
Fixpoint span_digits (s : string) : string * string :=
  match s with
  | String c r =>
      if is_digit c then let '(d, t) := span_digits r in (String c d, t)
      else (EmptyString, s)
  | EmptyString => (EmptyString, s)
  end.

Definition hex_val (c : ascii) : option N :=
  let n := N_of_ascii c in
  if ((48 <=? n) && (n <=? 57))%N then Some (n - 48)%N
  else if ((97 <=? n) && (n <=? 102))%N then Some (n - 87)%N
  else if ((65 <=? n) && (n <=? 70))%N then Some (n - 55)%N
  else None.

Definition hex4 (a b c d : ascii) : option N :=
  x1 ← hex_val a; x2 ← hex_val b; x3 ← hex_val c; x4 ← hex_val d;
  Some (((x1 * 16 + x2) * 16 + x3) * 16 + x4)%N.

(** The character a one-letter escape stands for. *)
Definition unescape (e : ascii) : option ascii :=
  if Ascii.eqb e quote then Some quote
  else if Ascii.eqb e backslash then Some backslash
  else if Ascii.eqb e "/" then Some "/"%char
  else if Ascii.eqb e "b" then Some "008"%char
  else if Ascii.eqb e "f" then Some "012"%char
  else if Ascii.eqb e "n" then Some "010"%char
  else if Ascii.eqb e "r" then Some "013"%char
  else if Ascii.eqb e "t" then Some "009"%char
  else None.

Definition cons_fst (c : N) (p : pystr * string) : pystr * string :=
  (c :: fst p, snd p).

Definition is_high_surrogate (n : N) : bool :=
  ((55296 <=? n) && (n <=? 56319))%N.

Definition is_low_surrogate (n : N) : bool :=
  ((56320 <=? n) && (n <=? 57343))%N.

(** The code point a surrogate pair stands for. *)
Definition join_surrogates (hi lo : N) : N :=
  (65536 + ((hi - 55296) * 1024 + (lo - 56320)))%N.

(** The body of a string literal after its opening quote: the decoded
    contents and the text after the closing quote. Control characters are
    refused, as the decoder is strict. A [u] escape denotes the code point
    of its four hexadecimal digits; a high surrogate that is followed by
    the escape of a low surrogate is joined with it into one code point,
    any other surrogate is kept as it is. *)
Fixpoint scan_string (s : string) : option (pystr * string) :=
  match s with
  | EmptyString => None
  | String c r =>
      if Ascii.eqb c quote then Some ([], r)
      else if Ascii.eqb c backslash then
        match r with
        | String "u" (String h1 (String h2 (String h3 (String h4 r')))) =>
            match hex4 h1 h2 h3 h4 with
            | Some n =>
                match r' with
                | String b (String "u" (String h5 (String h6 (String h7
                    (String h8 r''))))) =>
                    if is_high_surrogate n && Ascii.eqb b backslash then
                      match hex4 h5 h6 h7 h8 with
                      | Some n2 =>
                          if is_low_surrogate n2
                          then cons_fst (join_surrogates n n2)
                                 <$> scan_string r''
                          else cons_fst n <$> scan_string r'
                      | None => None
                      end
                    else cons_fst n <$> scan_string r'
                | _ => cons_fst n <$> scan_string r'
                end
            | None => None
            end
        | String e r' =>
            match unescape e with
            | Some ch => cons_fst (N_of_ascii ch) <$> scan_string r'
            | None => None
            end
        | EmptyString => None
        end
      else if (N_of_ascii c <? 32)%N then None
      else cons_fst (N_of_ascii c) <$> scan_string r
  end.

(** A number literal: an optional sign, an integer part without a leading
    zero, an optional fraction and an optional exponent, each taken
    greedily. Returns the literal and the rest of the text. *)
Definition scan_number (s : string) : option (string * string) :=
  let '(sign, s1) :=
    match s with
    | String "-" r => ("-", r)
    | _ => (EmptyString, s)
    end in
  let int_part :=
    match s1 with
    | String "0" r => Some ("0", r)
    | _ => match span_digits s1 with
           | (EmptyString, _) => None
           | (d, r) => Some (d, r)
           end
    end in
  match int_part with
  | None => None
  | Some (ip, s2) =>
      let '(frac, s3) :=
        match s2 with
        | String "." r =>
            match span_digits r with
            | (EmptyString, _) => (EmptyString, s2)
            | (d, r') => ("." +:+ d, r')
            end
        | _ => (EmptyString, s2)
        end in
      let exp_of (mark : string) (r : string) :=
        let '(sg, r1) :=
          match r with
          | String "-" t => ("-", t)
          | String "+" t => ("+", t)
          | _ => (EmptyString, r)
          end in
        match span_digits r1 with
        | (EmptyString, _) => (EmptyString, s3)
        | (d, r') => (mark +:+ sg +:+ d, r')
        end in
      let '(ex, s4) :=
        match s3 with
        | String "e" r => exp_of "e" r
        | String "E" r => exp_of "E" r
        | _ => (EmptyString, s3)
        end in
      Some (sign +:+ ip +:+ frac +:+ ex, s4)
  end.

(** [s] without the prefix [p], when it starts with it. *)
Fixpoint strip_prefix (p s : string) : option string :=
  match p, s with
  | EmptyString, _ => Some s
  | String a p', String b s' =>
      if Ascii.eqb a b then strip_prefix p' s' else None
  | _, _ => None
  end.

(** The constants the decoder accepts besides numbers. *)
Definition scan_constant (s : string) : option (json * string) :=
  match strip_prefix "null" s with
  | Some r => Some (JNull, r)
  | None =>
  match strip_prefix "true" s with
  | Some r => Some (JBool true, r)
  | None =>
  match strip_prefix "false" s with
  | Some r => Some (JBool false, r)
  | None =>
  match strip_prefix "NaN" s with
  | Some r => Some (JNumber "NaN", r)
  | None =>
  match strip_prefix "Infinity" s with
  | Some r => Some (JNumber "Infinity", r)
  | None =>
  match strip_prefix "-Infinity" s with
  | Some r => Some (JNumber "-Infinity", r)
  | None => None
  end end end end end end.

(** One value at the head of [s] (no leading white space), and the rest.
    [fuel] bounds the number of nested calls. *)
Fixpoint scan_value (fuel : nat) (s : string) : option (json * string) :=
  match fuel with
  | O => None
  | S fuel' =>
      match s with
      | String "{" r =>
          match skip_ws r with
          | String "}" r' => Some (JObject [], r')
          | r1 => scan_members fuel' r1 []
          end
      | String "[" r =>
          match skip_ws r with
          | String "]" r' => Some (JArray [], r')
          | r1 => scan_items fuel' r1 []
          end
      | String c r =>
          if Ascii.eqb c quote then
            '(str, r') ← scan_string r; Some (JString str, r')
          else
            match scan_constant s with
            | Some res => Some res
            | None => '(lit, r') ← scan_number s; Some (JNumber lit, r')
            end
      | EmptyString => None
      end
  end

(** The members of an object from its first key on; [acc] holds the
    members read so far. *)
with scan_members (fuel : nat) (s : string) (acc : list (pystr * json))
  : option (json * string) :=
  match fuel with
  | O => None
  | S fuel' =>
      match s with
      | String c r =>
          if Ascii.eqb c quote then
            '(key, r1) ← scan_string r;
            match skip_ws r1 with
            | String ":" r2 =>
                '(v, r3) ← scan_value fuel' (skip_ws r2);
                let acc' := dict_set key v acc in
                match skip_ws r3 with
                | String "}" r4 => Some (JObject acc', r4)
                | String "," r4 => scan_members fuel' (skip_ws r4) acc'
                | _ => None
                end
            | _ => None
            end
          else None
      | EmptyString => None
      end
  end

(** The items of an array from its first item on. *)
with scan_items (fuel : nat) (s : string) (acc : list json)
  : option (json * string) :=
  match fuel with
  | O => None
  | S fuel' =>
      '(v, r1) ← scan_value fuel' s;
      let acc' := acc ++ [v] in
      match skip_ws r1 with
      | String "]" r2 => Some (JArray acc', r2)
      | String "," r2 => scan_items fuel' (skip_ws r2) acc'
      | _ => None
      end
  end.

(** [json.loads(s)]: [None] stands for the [JSONDecodeError] the decoder
    raises, also when text follows the value. Every call of the scanner
    consumes a character, and the fuel is twice the length of the text.
    Two limits of the interpreter lie outside the model: its recursion
    limit, which turns a value nested some thousand levels deep into a
    [RecursionError], and its bound on the digits of an integer literal
    (4300 by default from Python 3.11 on), which turns a longer one into a
    [ValueError]; the theorems speak of texts within both. *)
Definition loads (s : string) : option json :=
  match scan_value (2 * String.length s + 2) (skip_ws s) with
  | Some (v, r) =>
      match skip_ws r with
      | EmptyString => Some v
      | _ => None
      end
  | None => None
  end.

End Json.

(** ** Exceptions, emitted events and the state of the process *)

Inductive exn : Type :=
| RuntimeError (msg : string)
| AttributeError (msg : string)
| JSONDecodeError
| ExternalError (msg : string).

Inductive outcome (A : Type) : Type :=
| Returned (a : A)
| Raised (e : exn).
Arguments Returned {A} a.
Arguments Raised {A} e.

(** The text of an error event: a literal, [str(e)], or
    [f'Failed to process transcript: {str(e)}']. *)
Inductive err_text : Type :=
| Literal (s : string)
| StrOf (e : exn)
| FailedToProcess (e : exn).

(** The events the server emits to a client. [transcription_started]
    always carries status [success]; [live_transcript] always carries
    confidence 0.9. *)
Inductive out_event : Type :=
| connection_status
| transcription_started
| live_transcript (transcript : string) (is_final : bool)
| live_transcription_complete
    (original_transcript english_transcript : string)
    (summary_data : json) (recording_file : string)
| live_transcription_error (error : err_text).

(** The upstream live connection: the audio forwarded to it so far. *)
Record live_connection : Type := { audio_sent : list string }.

(** The fields of a [DeepgramService] object. The only callback ever
    installed is the closure [send_transcript_to_client] of a start
    handler; [callback] names it by the connection whose start created it.
    The name is a label only: what a call of the closure does is
    [send_transcript_to_client]. *)
Record DeepgramService : Type := {
  connection : option live_connection;
  final_transcript : string;
  last_interim : string;
  active : bool;
  callback : option string
}.

(** The session dict stored in [active_transcriptions]; [service] is the
    address of the service object. *)
Record session_data : Type := {
  service : nat;
  language_code : string;
  transcript_parts : list string;
  interim_transcript : string;
  start_time : nat
}.

(** The state of the process: the registry, the object store and its next
    free address, the events sent so far with their rooms, and the files
    written in full so far with their contents. *)
Record world : Type := {
  active_transcriptions : gmap string session_data;
  services : gmap nat DeepgramService;
  next_service : nat;
  emitted : list (string * out_event);
  files : list (string * string)
}.

Definition empty_world : world :=
  {| active_transcriptions := ∅; services := ∅; next_service := 0;
     emitted := []; files := [] |}.

(** The object [__init__] leaves behind. *)
Definition new_service : DeepgramService :=
  {| connection := None; final_transcript := EmptyString;
     last_interim := EmptyString; active := false; callback := None |}.

Definition service_at (w : world) (a : nat) : DeepgramService :=
  default new_service (services w !! a).

Definition with_sessions (f : gmap string session_data → gmap string session_data)
    (w : world) : world :=
  {| active_transcriptions := f (active_transcriptions w);
     services := services w; next_service := next_service w;
     emitted := emitted w; files := files w |}.

Definition with_service (a : nat) (f : DeepgramService → DeepgramService)
    (w : world) : world :=
  {| active_transcriptions := active_transcriptions w;
     services := <[a := f (service_at w a)]> (services w);
     next_service := next_service w;
     emitted := emitted w; files := files w |}.

Definition with_emitted (room : string) (ev : out_event) (w : world) : world :=
  {| active_transcriptions := active_transcriptions w;
     services := services w; next_service := next_service w;
     emitted := emitted w ++ [(room, ev)]; files := files w |}.

Definition with_file (path contents : string) (w : world) : world :=
  {| active_transcriptions := active_transcriptions w;
     services := services w; next_service := next_service w;
     emitted := emitted w; files := files w ++ [(path, contents)] |}.

Definition set_connection (c : option live_connection) (s : DeepgramService) :=
  {| connection := c; final_transcript := final_transcript s;
     last_interim := last_interim s; active := active s;
     callback := callback s |}.
Definition set_final_transcript (t : string) (s : DeepgramService) :=
  {| connection := connection s; final_transcript := t;
     last_interim := last_interim s; active := active s;
     callback := callback s |}.
Definition set_last_interim (t : string) (s : DeepgramService) :=
  {| connection := connection s; final_transcript := final_transcript s;
     last_interim := t; active := active s; callback := callback s |}.
Definition set_active (b : bool) (s : DeepgramService) :=
  {| connection := connection s; final_transcript := final_transcript s;
     last_interim := last_interim s; active := b; callback := callback s |}.
Definition set_callback (cb : option string) (s : DeepgramService) :=
  {| connection := connection s; final_transcript := final_transcript s;
     last_interim := last_interim s; active := active s; callback := cb |}.

(** ** The handler monad: state and exceptions *)

Definition M (A : Type) : Type := world → outcome A * world.

Definition ret {A} (a : A) : M A := λ w, (Returned a, w).
Definition raise {A} (e : exn) : M A := λ w, (Raised e, w).
Definition bind {A B} (m : M A) (k : A → M B) : M B :=
  λ w, match m w with
       | (Returned a, w') => k a w'
       | (Raised e, w') => (Raised e, w')
       end.
(** [try: m except Exception as e: h e]. What [m] did before it raised
    stays done. *)
Definition try_except {A} (m : M A) (h : exn → M A) : M A :=
  λ w, match m w with
       | (Returned a, w') => (Returned a, w')
       | (Raised e, w') => h e w'
       end.
Definition get_world : M world := λ w, (Returned w, w).
Definition modify (f : world → world) : M unit := λ w, (Returned tt, f w).
Definition lift {A} (o : outcome A) : M A := λ w, (o, w).

#[global] Instance M_ret : MRet M := @ret.
#[global] Instance M_bind : MBind M := λ A B k m, bind m k.

(** The world an action leaves and the value it gives. *)
Definition exec {A} (m : M A) (w : world) : world := snd (m w).
Definition eval {A} (m : M A) (w : world) : outcome A := fst (m w).

Definition emit (room : string) (ev : out_event) : M unit :=
  modify (with_emitted room ev).
Definition get_service (a : nat) : M DeepgramService :=
  w ← get_world; mret (service_at w a).
Definition update_service (a : nat) (f : DeepgramService → DeepgramService)
  : M unit := modify (with_service a f).

(** [request.sid] read under the request context [context]: the identifier
    of the connection whose event is being handled, or [RuntimeError] where
    no event is being handled. *)
Definition request_sid (context : option string) : M string :=
  match context with
  | Some sid => mret sid
  | None => raise (RuntimeError "Working outside of request context.")
  end.

(** [Thread(target=...).start()]: the target runs outside any request
    context; an exception that escapes it is lost with the thread. *)
Definition thread (target : M unit) : M unit :=
  try_except target (λ _, mret tt).

(** ** What the environment answers *)

(** [connection.start(options)]: a truth value, or an exception. *)
Inductive start_result : Type :=
| StartReturns (ok : bool)
| StartRaises (msg : string).

(** Creating the live connection and starting it. *)
Inductive upstream_start : Type :=
| ConnectRaises (msg : string)
| Connected (r : start_result).

Record start_env : Type := {
  api_key : option string;        (* os.getenv of DEEPGRAM_API_KEY *)
  upstream : upstream_start;
  utcnow : nat
}.

(** [model.generate_content(prompt).text], or the exception raised on the
    way to it. *)
Inductive gemini_reply : Type :=
| GeminiRaises (msg : string)
| GeminiText (text : string).

Record stop_env : Type := {
  finish_raises : option string;  (* connection.finish() raises *)
  gemini_init_raises : option string;
  gemini : gemini_reply;
  timestamp : string;             (* datetime.now().strftime(...) *)
  write_raises : option string    (* makedirs, open or write raises *)
}.

Record audio_env : Type := {
  decoded : option string;        (* base64.b64decode; None when it raises *)
  send_raises : option string     (* connection.send() raises *)
}.

(** The argument of an event: a dict of strings, or something that has
    no [get]. *)
Inductive payload : Type :=
| PNone
| PDict (d : gmap string string).

Definition payload_get (data : payload) (key dflt : string) : M string :=
  match data with
  | PDict d => mret (default dflt (d !! key))
  | PNone => raise (AttributeError "'NoneType' object has no attribute 'get'")
  end.

Definition raise_if (o : option string) : M unit :=
  match o with
  | Some msg => raise (ExternalError msg)
  | None => mret tt
  end.

(** A transcript result of the upstream service. *)
Record alternative : Type := { transcript : string }.
Record channel_t : Type := { alternatives : list alternative }.
Record dg_result : Type := { channel : option channel_t; is_final : bool }.

(** ** flaskapp5.py: the callback of a session *)

Definition append_part (t : string) (sd : session_data) : session_data :=
  {| service := service sd; language_code := language_code sd;
     transcript_parts := transcript_parts sd ++ [t];
     interim_transcript := EmptyString; start_time := start_time sd |}.

Definition set_interim (t : string) (sd : session_data) : session_data :=
  {| service := service sd; language_code := language_code sd;
     transcript_parts := transcript_parts sd;
     interim_transcript := t; start_time := start_time sd |}.

(** The closure [send_transcript_to_client] of a start handler, called
    under the request context [context]. It captures nothing of the request
    that created it: both uses of [request.sid] are evaluated when it is
    called. *)
Definition send_transcript_to_client (context : option string)
    (transcript : string) (is_final : bool) : M unit :=
  sid ← request_sid context;
  w ← get_world;
  match active_transcriptions w !! sid with
  | None => mret tt
  | Some session =>
      modify (with_sessions
                <[sid := if is_final then append_part transcript session
                         else set_interim transcript session]>);;
      room ← request_sid context;
      emit room (live_transcript transcript is_final)
  end.

(** ** deepgram_service.py *)

(** [DeepgramService()]: the address of the new object. The message of
    the error is the one of the source without its leading symbol. *)
Definition DeepgramService_init (key : option string) : M nat :=
  match key with
  | Some k =>
      if PyStr.truthy k then
        w ← get_world;
        let a := next_service w in
        modify (λ w, {| active_transcriptions := active_transcriptions w;
                        services := <[a := new_service]> (services w);
                        next_service := S a;
                        emitted := emitted w; files := files w |});;
        mret a
      else raise (RuntimeError "DEEPGRAM_API_KEY missing")
  | None => raise (RuntimeError "DEEPGRAM_API_KEY missing")
  end.

Definition start_transcription (self : nat) (send_to_client : string)
    (up : upstream_start) : M bool :=
  try_except
    (update_service self (set_callback (Some send_to_client));;
     update_service self (set_final_transcript EmptyString);;
     update_service self (set_last_interim EmptyString);;
     match up with
     | ConnectRaises msg => raise (ExternalError msg)
     | Connected r =>
         update_service self (set_connection (Some {| audio_sent := [] |}));;
         result ← match r with
                  | StartReturns ok => mret ok
                  | StartRaises msg => raise (ExternalError msg)
                  end;
         if result : bool then
           update_service self (set_active true);; mret true
         else mret false
     end)
    (λ _, mret false).

(** The handler [on_message] registered for transcript results of the
    connection of [service]. The SDK calls it on its event loop, where no
    request is being handled, and so it calls the callback. *)
Definition on_message (service : nat) (result : dg_result) : M unit :=
  try_except
    (match channel result with
     | None => mret tt
     | Some ch =>
         match alternatives ch with
         | [] => mret tt
         | alt :: _ =>
             let sentence := transcript alt in
             if negb (PyStr.truthy sentence) then mret tt
             else if is_final result then
               s ← get_service service;
               update_service service
                 (set_final_transcript (final_transcript s +:+ (sentence +:+ " ")));;
               update_service service (set_last_interim EmptyString);;
               s ← get_service service;
               match callback s with
               | Some _ => send_transcript_to_client None sentence true
               | None => mret tt
               end
             else
               update_service service (set_last_interim sentence);;
               s ← get_service service;
               match callback s with
               | Some _ => send_transcript_to_client None sentence false
               | None => mret tt
               end
         end
     end)
    (λ _, mret tt).

Definition send_audio (self : nat) (audio_data : string)
    (raises : option string) : M bool :=
  try_except
    (s ← get_service self;
     match connection s with
     | Some c =>
         if active s then
           raise_if raises;;
           update_service self
             (set_connection (Some {| audio_sent := audio_sent c ++ [audio_data] |}));;
           mret true
         else mret false
     | None => mret false
     end)
    (λ _, mret false).

Definition finish (self : nat) (raises : option string) : M string :=
  try_except
    (update_service self (set_active false);;
     s ← get_service self;
     match connection s with
     | Some _ => raise_if raises
     | None => mret tt
     end;;
     s ← get_service self;
     mret (PyStr.strip (final_transcript s)))
    (λ _, s ← get_service self; mret (PyStr.strip (final_transcript s))).

(** [is_active] and [reset]. *)
Definition is_active (self : nat) : M bool :=
  s ← get_service self; mret (active s).

Definition reset (self : nat) : M unit :=
  update_service self (set_final_transcript EmptyString);;
  update_service self (set_last_interim EmptyString);;
  update_service self (set_active false);;
  update_service self (set_connection None);;
  update_service self (set_callback None).


(** ** flaskapp5.py: the summary generator *)

(** The dict returned when the reply holds no brace pair. *)
Definition fallback_summary (translation : string) : json :=
  JObject [("summary", JString (PyStr.slice translation 0 200));
           ("medical_condition", JString "Not extracted");
           ("treatment_plan", JString "Not extracted");
           ("followup_date", JString "Not specified")].

Definition generate_structured_medical_summary (reply : gemini_reply)
    (translation : string) : outcome json :=
  match reply with
  | GeminiRaises msg => Raised (ExternalError msg)
  | GeminiText text =>
      let response_text := PyStr.strip text in
      let json_start := PyStr.find "{" response_text in
      let json_end := PyStr.rfind "}" response_text in
      if negb (json_start =? -1)%Z && negb (json_end =? -1)%Z then
        let json_str := PyStr.slice response_text json_start (json_end + 1) in
        match Json.loads json_str with
        | Some summary_data => Returned summary_data
        | None => Raised JSONDecodeError
        end
      else Returned (fallback_summary translation)
  end.

(** ** flaskapp5.py: the Socket.IO handlers *)

Definition handle_connect (sid : string) : M unit :=
  emit sid connection_status.

Definition handle_disconnect (sid : string) (raises : option string) : M unit :=
  w ← get_world;
  match active_transcriptions w !! sid with
  | Some transcription_data =>
      finish (service transcription_data) raises;;
      modify (with_sessions (delete sid))
  | None => mret tt
  end.

Definition handle_start_live_transcription (sid : string) (data : payload)
    (env : start_env) : M unit :=
  try_except
    (language_code ← payload_get data "language_code" "en-US";
     deepgram_service ← DeepgramService_init (api_key env);
     modify (with_sessions
               <[sid := {| service := deepgram_service;
                           language_code := language_code;
                           transcript_parts := [];
                           interim_transcript := EmptyString;
                           start_time := utcnow env |}]>);;
     (* the thread start_deepgram; what start_transcription returns is dropped *)
     thread (start_transcription deepgram_service sid (upstream env);; mret tt);;
     emit sid transcription_started)
    (λ e, emit sid (live_transcription_error (StrOf e))).

(** Every chunk is sent by a thread of its own that nothing joins. The
    model runs the thread at once and so fixes one of the orders in which
    the sends of several chunks may reach the connection. *)
Definition handle_audio_chunk (sid : string) (data : payload)
    (env : audio_env) : M unit :=
  try_except
    (w ← get_world;
     match active_transcriptions w !! sid with
     | None => mret tt
     | Some session =>
         payload_get data "audio" EmptyString;;
         audio_bytes ← match decoded env with
                       | Some b => mret b
                       | None => raise (ExternalError "binascii.Error")
                       end;
         (* the thread send_audio *)
         thread (send_audio (service session) audio_bytes (send_raises env);;
                 mret tt)
     end)
    (λ _, mret tt).

(** The thread body [finalize_transcription] of the stop handler, under
    the request context [context]. Each [room=request.sid] and the
    [request.sid] of the final test are evaluated when the line runs. *)
Definition finalize_transcription (context : option string)
    (deepgram_service : nat) (env : stop_env) : M unit :=
  final_transcript ← finish deepgram_service (finish_raises env);
  try_except
    (raise_if (gemini_init_raises env);;
     let english_transcript := final_transcript in
     summary_data ← lift (generate_structured_medical_summary
                            (gemini env) english_transcript);
     let recording_file := "recordings/live_" +:+ timestamp env +:+ ".txt" in
     raise_if (write_raises env);;
     modify (with_file recording_file final_transcript);;
     room ← request_sid context;
     emit room (live_transcription_complete final_transcript
                  english_transcript summary_data recording_file))
    (λ e, room ← request_sid context;
          emit room (live_transcription_error (FailedToProcess e)));;
  sid ← request_sid context;
  w ← get_world;
  match active_transcriptions w !! sid with
  | Some _ => modify (with_sessions (delete sid))
  | None => mret tt
  end.

Definition handle_stop_live_transcription (sid : string) (env : stop_env)
  : M unit :=
  try_except
    (w ← get_world;
     match active_transcriptions w !! sid with
     | None =>
         emit sid (live_transcription_error
                     (Literal "No active transcription session"))
     | Some session =>
         thread (finalize_transcription None (service session) env)
     end)
    (λ e, emit sid (live_transcription_error (StrOf e))).

(** ** flaskapp5.py: the record routes *)

(** The values of a request body or of a stored document. *)
#[warnings="-register-all"]
Inductive pyval : Type :=
| VNone
| VBool (b : bool)
| VInt (z : Z)
| VStr (s : string)
| VDatetime (t : nat)
| VList (items : list pyval)
| VDict (members : list (string * pyval)).

#[global] Instance outcome_ret : MRet outcome := @Returned.
#[global] Instance outcome_bind : MBind outcome :=
  λ A B k o, match o with Returned a => k a | Raised e => Raised e end.

Module Doc.

(** [k in d] and [d[k]] on a dict kept in insertion order. *)
Fixpoint lookup (k : string) (d : list (string * pyval)) : option pyval :=
  match d with
  | [] => None
  | (k', v) :: r => if String.eqb k' k then Some v else lookup k r
  end.

(** [d[k] = v]. *)
Fixpoint assign (k : string) (v : pyval) (d : list (string * pyval))
  : list (string * pyval) :=
  match d with
  | [] => [(k, v)]
  | (k', v') :: r =>
      if String.eqb k' k then (k', v) :: r else (k', v') :: assign k v r
  end.

Definition type_name (v : pyval) : string :=
  match v with
  | VNone => "NoneType"
  | VBool _ => "bool"
  | VInt _ => "int"
  | VStr _ => "str"
  | VDatetime _ => "datetime.datetime"
  | VList _ => "list"
  | VDict _ => "dict"
  end.

Definition no_attribute (v : pyval) (attr : string) : exn :=
  AttributeError ("'" +:+ type_name v +:+ "' object has no attribute '"
                  +:+ attr +:+ "'").

(** [v.get(k)] and [v.get(k, dflt)]. *)
Definition get (v : pyval) (k : string) (dflt : pyval) : outcome pyval :=
  match v with
  | VDict d => Returned (default dflt (lookup k d))
  | _ => Raised (no_attribute v "get")
  end.

End Doc.

Section Routes.

(** [datetime.strftime] with the format of the listing. *)
Variable strftime : nat → string.

Definition format_timestamp (v : pyval) : outcome pyval :=
  match v with
  | VDatetime t => Returned (VStr (strftime t))
  | _ => Raised (Doc.no_attribute v "strftime")
  end.

(** The body of the loop of [api_get_patient_records] on one record. *)
Definition decorate (record : list (string * pyval))
  : outcome (list (string * pyval)) :=
  record ← match Doc.lookup "timestamp" record with
           | Some ts =>
               formatted ← format_timestamp ts;
               mret (Doc.assign "timestamp" formatted record)
           | None => mret record
           end;
  record ← match Doc.lookup "summary_data" record with
           | Some summary_data =>
               mc ← Doc.get summary_data "medical_condition" (VStr "N/A");
               let record := Doc.assign "medical_condition" mc record in
               tp ← Doc.get summary_data "treatment_plan" (VStr "N/A");
               let record := Doc.assign "treatment_plan" tp record in
               fd ← Doc.get summary_data "followup_date" (VStr "N/A");
               mret (Doc.assign "followup_date" fd record)
           | None => mret record
           end;
  let record := match Doc.lookup "recording_file" record with
                | Some v => Doc.assign "recording_path" v record
                | None => record
                end in
  let record := match Doc.lookup "transcript" record with
                | Some v => Doc.assign "original_transcript" v record
                | None => record
                end in
  let record := match Doc.lookup "translation" record with
                | Some v => Doc.assign "english_transcript" v record
                | None => record
                end in
  mret record.

(** The loop over the records of the query. *)
Fixpoint decorate_all (records : list (list (string * pyval)))
  : outcome (list (list (string * pyval))) :=
  match records with
  | [] => mret []
  | record :: rest =>
      record' ← decorate record;
      rest' ← decorate_all rest;
      mret (record' :: rest')
  end.

(** The three answers of [api_get_patient_records]: status 200 with
    [success], [patient_id] and [records]; status 500 with the message
    [MongoDB not available]; status 500 with the message [str(e)]. *)
Inductive listing : Type :=
| Listed (patient_id : string) (records : list (list (string * pyval)))
| ListingUnavailable
| ListingFailed (e : exn).

(** [records_col] is [None] when the client could not be set up; else it
    holds what [find(...).sort(...)] gives for the patient. *)
Definition api_get_patient_records
    (records_col : option (outcome (list (list (string * pyval)))))
    (patient_id : string) : listing :=
  match records_col with
  | None => ListingUnavailable
  | Some found =>
      match records ← found; decorate_all records with
      | Returned records => Listed patient_id records
      | Raised e => ListingFailed e
      end
  end.

(** The document [save] hands to [insert_one]. *)
Definition save_record (data : pyval) (utcnow : nat)
  : outcome (list (string * pyval)) :=
  patient_id ← Doc.get data "patient_id" VNone;
  doctor_id ← Doc.get data "doctor_id" VNone;
  recording_file ← Doc.get data "recording_file" VNone;
  transcript ← Doc.get data "transcript" VNone;
  translation ← Doc.get data "translation" VNone;
  summary_data ← Doc.get data "summary_data" VNone;
  mret [("patient_id", patient_id); ("doctor_id", doctor_id);
        ("recording_file", recording_file); ("transcript", transcript);
        ("translation", translation); ("summary_data", summary_data);
        ("timestamp", VDatetime utcnow); ("tests", VDict [])].

(** The answers of [save]: status 200 with the identifier of the stored
    document (kept here with the document itself); status 500 with the
    error [MongoDB not available]; status 500 with the error [str(e)]. *)
Inductive saving : Type :=
| Saved (record_id : string) (record : list (string * pyval))
| SavingUnavailable
| SavingFailed (e : exn).

(** [records_col] is [None] when the client could not be set up; else it
    holds what [insert_one] answers: the new identifier or an exception.
    [data] is what [request.get_json()] gives. *)
Definition save (records_col : option (outcome string))
    (data : outcome pyval) (utcnow : nat) : saving :=
  match records_col with
  | None => SavingUnavailable
  | Some inserted =>
      match (data ← data;
             record ← save_record data utcnow;
             record_id ← inserted;
             mret (record_id, record)) with
      | Returned (record_id, record) => Saved record_id record
      | Raised e => SavingFailed e
      end
  end.

End Routes.

(** ** The process as a transition system *)

Inductive input : Type :=
| Connect (sid : string)
| Disconnect (sid : string) (raises : option string)
| StartLive (sid : string) (data : payload) (env : start_env)
| AudioChunk (sid : string) (data : payload) (env : audio_env)
| StopLive (sid : string) (env : stop_env)
| Transcript (service : nat) (result : dg_result).

Definition step (i : input) : M unit :=
  match i with
  | Connect sid => handle_connect sid
  | Disconnect sid raises => handle_disconnect sid raises
  | StartLive sid data env => handle_start_live_transcription sid data env
  | AudioChunk sid data env => handle_audio_chunk sid data env
  | StopLive sid env => handle_stop_live_transcription sid env
  | Transcript service result => on_message service result
  end.

Definition run (inputs : list input) (w : world) : world :=
  foldl (λ w i, exec (step i) w) w inputs.

(** The events emitted between an earlier world and a later one. *)
Definition emitted_since (w w' : world) : list (string * out_event) :=
  drop (List.length (emitted w)) (emitted w').

(** The results of [rs] that reach the callback, as [(text, is_final)]:
    [on_message] returns early on a result without channel, without
    alternatives or with an empty transcript. *)
Definition transcript_event (r : dg_result) : option (string * bool) :=
  match channel r with
  | Some ch =>
      match alternatives ch with
      | alt :: _ =>
          if PyStr.truthy (transcript alt) then Some (transcript alt, is_final r)
          else None
      | [] => None
      end
  | None => None
  end.

(** The texts of the events marked final, in order. *)
Definition final_texts (evs : list (string * bool)) : list string :=
  fst <$> filter (λ ev, snd ev = true) evs.

(** Each text followed by one space, concatenated. *)
Definition spaced_concat (texts : list string) : string :=
  foldr (λ t acc, t +:+ " " +:+ acc) EmptyString texts.

(** ** Notions used in the statements *)

(** The world [DeepgramService()] leaves. *)
Definition allocated (w : world) : world :=
  {| active_transcriptions := active_transcriptions w;
     services := <[next_service w := new_service]> (services w);
     next_service := S (next_service w);
     emitted := emitted w; files := files w |}.

(** What [start_transcription] does to the fields of the service. *)
Definition started (cb : string) (up : upstream_start)
    (s : DeepgramService) : DeepgramService :=
  let s0 := set_last_interim EmptyString
              (set_final_transcript EmptyString (set_callback (Some cb) s)) in
  match up with
  | ConnectRaises _ => s0
  | Connected r =>
      let s1 := set_connection (Some {| audio_sent := [] |}) s0 in
      match r with
      | StartReturns true => set_active true s1
      | _ => s1
      end
  end.

Definition start_succeeds (up : upstream_start) : bool :=
  match up with
  | Connected (StartReturns true) => true
  | _ => false
  end.

(** The session dict a start stores. *)
Definition fresh_session (a : nat) (d : gmap string string) (env : start_env)
  : session_data :=
  {| service := a; language_code := default "en-US" (d !! "language_code");
     transcript_parts := []; interim_transcript := EmptyString;
     start_time := utcnow env |}.

(** The summary a stop obtains once [finish] has returned [text]: there is
    one when the start-up of the model, the summary and the write of the
    file all succeed. *)
Definition stop_summary (text : string) (env : stop_env) : option json :=
  match gemini_init_raises env,
        generate_structured_medical_summary (gemini env) text,
        write_raises env with
  | None, Returned summary, None => Some summary
  | _, _, _ => None
  end.

(** The name of the file a stop writes. *)
Definition recording_file_of (env : stop_env) : string :=
  "recordings/live_" +:+ timestamp env +:+ ".txt".

(** The files once the thread of a stop has ended. *)
Definition stop_files (text : string) (env : stop_env) (w : world) : world :=
  match stop_summary text env with
  | Some _ => with_file (recording_file_of env) text w
  | None => w
  end.

(** What [on_message] does to the service for an event that reaches the
    callback. *)
Definition note_event (ev : string * bool) (s : DeepgramService) : DeepgramService :=
  if ev.2 then
    set_last_interim EmptyString
      (set_final_transcript (final_transcript s +:+ (ev.1 +:+ " ")) s)
  else set_last_interim ev.1 s.

(** What [on_message] leaves of a result that carries the event [ev]: the
    callback raises and the handler swallows the exception. *)
Definition received (svc : nat) (ev : string * bool) (w : world) : world :=
  with_service svc (note_event ev) w.

(** The transcript event of an input, when the input is a result that
    arrives on the service [svc]. *)
Definition result_on (svc : nat) (i : input) : option (string * bool) :=
  match i with
  | Transcript a r => if decide (a = svc) then transcript_event r else None
  | _ => None
  end.

(** The transcript events that arrive on the service [svc] in the course
    of [inputs]. *)
Definition events_on (svc : nat) (inputs : list input) : list (string * bool) :=
  omap (result_on svc) inputs.

(** A session whose buffers are as the start left them. *)
Definition unwritten (sd : session_data) : Prop :=
  transcript_parts sd = [] ∧ interim_transcript sd = EmptyString.

(** A result that carries the single alternative [t]. *)
Definition text_result (t : string) (f : bool) : dg_result :=
  {| channel := Some {| alternatives := [ {| transcript := t |} ] |}; is_final := f |}.

(** ** A sample session

    One client, identifier [sid-1]: a start, three audio chunks, two
    interim results and one final result, then a stop. *)

Module Sample.

Definition sid : string := "sid-1".

Definition en_US : gmap string string := {[ "language_code" := "en-US" ]}.

Definition started_with (up : upstream_start) : start_env :=
  {| api_key := Some "dg-key"; upstream := up; utcnow := 0 |}.

Definition live : start_env := started_with (Connected (StartReturns true)).

Definition chunk : audio_env := {| decoded := Some "pcm"; send_raises := None |}.

Definition quoted (s : string) : string :=
  String Json.quote (s +:+ String Json.quote EmptyString).

(** A reply that wraps the requested object in prose. *)
Definition reply : string :=
  "Here is the summary: {"
  +:+ quoted "summary" +:+ ": " +:+ quoted "Patient reports fever" +:+ ", "
  +:+ quoted "medical_condition" +:+ ": " +:+ quoted "Fever" +:+ ", "
  +:+ quoted "treatment_plan" +:+ ": " +:+ quoted "Not specified" +:+ ", "
  +:+ quoted "followup_date" +:+ ": " +:+ quoted "Not specified" +:+ "}".

Definition stopped_with (g : gemini_reply) : stop_env :=
  {| finish_raises := None; gemini_init_raises := None; gemini := g;
     timestamp := "20260202_114544"; write_raises := None |}.

Definition results : list dg_result :=
  [text_result "patient" false; text_result "patient reports" false;
   text_result "patient reports fever" true].

(** The world once the session is started and the audio is sent. *)
Definition listening : world :=
  run [StartLive sid (PDict en_US) live;
       AudioChunk sid (PDict ∅) chunk; AudioChunk sid (PDict ∅) chunk;
       AudioChunk sid (PDict ∅) chunk] empty_world.

(** The world once the three results have arrived. *)
Definition dictated : world := run (Transcript 0 <$> results) listening.

(** The session dict in [listening]. *)
Definition session : session_data := fresh_session 0 en_US live.

(** The inputs that lead from the empty state to [dictated]. *)
Definition history : list input :=
  [StartLive sid (PDict en_US) live;
   AudioChunk sid (PDict ∅) chunk; AudioChunk sid (PDict ∅) chunk;
   AudioChunk sid (PDict ∅) chunk]
  ++ (Transcript 0 <$> results).

End Sample.

(** ** Notions used in the further properties *)

(** The connection after one more chunk was forwarded. *)
Definition forward (audio_data : string) (s : DeepgramService) : DeepgramService :=
  match connection s with
  | Some c =>
      set_connection (Some {| audio_sent := audio_sent c ++ [audio_data] |}) s
  | None => s
  end.

(** The audio a service has forwarded upstream so far. *)
Definition audio_of (s : DeepgramService) : list string :=
  match connection s with Some c => audio_sent c | None => [] end.

(** The bytes of a chunk that reach [connection.send] and are accepted:
    none when the payload has no [get], when [b64decode] raises or when
    the send raises. *)
Definition forwarded_chunk (c : payload * audio_env) : option string :=
  match c.1, decoded c.2, send_raises c.2 with
  | PDict _, Some b, None => Some b
  | _, _, _ => None
  end.

(** Whether a service accepts audio. *)
Definition live_service (s : DeepgramService) : bool :=
  bool_decide (is_Some (connection s)) && active s.

(** The connection whose session an input belongs to: the sender of a
    client event, the owner of the callback for an upstream result. *)
Definition addressee (i : input) (w : world) : option string :=
  match i with
  | Connect sid | Disconnect sid _ | StartLive sid _ _
  | AudioChunk sid _ _ | StopLive sid _ => Some sid
  | Transcript svc _ => callback (service_at w svc)
  end.

(** Whether a decoded value is a dict. *)
Definition is_object (v : json) : Prop := ∃ members, v = JObject members.

(** The keys the listing writes into a record. *)
Definition written_keys : list string :=
  ["timestamp"; "medical_condition"; "treatment_plan"; "followup_date";
   "recording_path"; "original_transcript"; "english_transcript"].

Definition is_dict (v : pyval) : Prop := ∃ d, v = VDict d.

(** How a listed record relates to the stored one: fields the listing
    does not write keep their value, no key is lost, and the three aliases
    repeat the fields they are read from. *)
Definition extends (record record' : list (string * pyval)) : Prop :=
  (∀ k v, Doc.lookup k record = Some v → k ∉ written_keys →
          Doc.lookup k record' = Some v)
  ∧ (∀ k, is_Some (Doc.lookup k record) → is_Some (Doc.lookup k record'))
  ∧ (∀ v, Doc.lookup "recording_file" record = Some v →
          Doc.lookup "recording_path" record' = Some v)
  ∧ (∀ v, Doc.lookup "transcript" record = Some v →
          Doc.lookup "original_transcript" record' = Some v)
  ∧ (∀ v, Doc.lookup "translation" record = Some v →
          Doc.lookup "english_transcript" record' = Some v).

Module SampleRecord.

Definition strftime (t : nat) : string := "2026-02-02 11:45:44".

Definition body : list (string * pyval) :=
  [("patient_id", VStr "p-17"); ("doctor_id", VStr "d-4");
   ("transcript", VStr "patient reports fever");
   ("translation", VStr "patient reports fever");
   ("summary_data", VDict [("medical_condition", VStr "Fever")])].

Definition stored : list (string * pyval) :=
  [("patient_id", VStr "p-17"); ("doctor_id", VStr "d-4");
   ("recording_file", VNone);
   ("transcript", VStr "patient reports fever");
   ("translation", VStr "patient reports fever");
   ("summary_data", VDict [("medical_condition", VStr "Fever")]);
   ("timestamp", VDatetime 0); ("tests", VDict [])].

Definition listed : list (string * pyval) :=
  [("patient_id", VStr "p-17"); ("doctor_id", VStr "d-4");
   ("recording_file", VNone);
   ("transcript", VStr "patient reports fever");
   ("translation", VStr "patient reports fever");
   ("summary_data", VDict [("medical_condition", VStr "Fever")]);
   ("timestamp", VStr "2026-02-02 11:45:44"); ("tests", VDict []);
   ("medical_condition", VStr "Fever"); ("treatment_plan", VStr "N/A");
   ("followup_date", VStr "N/A"); ("recording_path", VNone);
   ("original_transcript", VStr "patient reports fever");
   ("english_transcript", VStr "patient reports fever")].

End SampleRecord.

(** * Properties *)

(** ** Equations of the primitives *)

Ltac unfold_py :=
  unfold exec, eval, emit, update_service, get_service, modify, get_world,
    raise_if, lift, thread, request_sid, try_except, raise,
    mbind, M_bind, bind, mret, M_ret, ret in *.

Lemma emitted_since_with_emitted (w : world) (room : string) (ev : out_event) :
  emitted_since w (with_emitted room ev w) = [(room, ev)].
Proof. unfold emitted_since. simpl. by rewrite drop_app_length. Qed.

Lemma service_at_with_service (a : nat) f (w : world) :
  service_at (with_service a f w) a = f (service_at w a).
Proof. unfold service_at at 1. simpl. by rewrite lookup_insert_eq. Qed.

Lemma service_at_with_service_ne (a b : nat) f (w : world) :
  a ≠ b → service_at (with_service a f w) b = service_at w b.
Proof. intros Hne. unfold service_at. simpl. by rewrite lookup_insert_ne. Qed.

Lemma with_service_twice (a : nat) f g (w : world) :
  with_service a f (with_service a g w) = with_service a (f ∘ g) w.
Proof.
  unfold with_service at 1. rewrite service_at_with_service. simpl.
  unfold with_service. by rewrite insert_insert_eq.
Qed.

(** [finish] returns the stripped transcript whether or not closing the
    connection raises, and only clears [active]. *)
Lemma finish_spec (self : nat) (raises : option string) (w : world) :
  finish self raises w =
    (Returned (PyStr.strip (final_transcript (service_at w self))),
     with_service self (set_active false) w).
Proof.
  unfold finish. unfold_py. rewrite service_at_with_service. simpl.
  destruct (connection (service_at w self)); [destruct raises|]; simpl;
    rewrite ?service_at_with_service; reflexivity.
Qed.

Lemma DeepgramService_init_spec (key : string) (w : world) :
  PyStr.truthy key = true →
  DeepgramService_init (Some key) w = (Returned (next_service w), allocated w).
Proof. intros Hkey. unfold DeepgramService_init. rewrite Hkey. reflexivity. Qed.

Lemma start_transcription_spec (self : nat) (cb : string)
    (up : upstream_start) (w : world) :
  start_transcription self cb up w =
    (Returned (start_succeeds up), with_service self (started cb up) w).
Proof.
  unfold start_transcription. unfold_py.
  destruct up as [msg | [[|] | msg]]; simpl;
    rewrite !with_service_twice; reflexivity.
Qed.

Lemma thread_start_transcription (self : nat) (cb : string)
    (up : upstream_start) (w : world) :
  thread (start_transcription self cb up;; mret tt) w
  = (Returned tt, with_service self (started cb up) w).
Proof.
  unfold thread, try_except. unfold mbind, M_bind, bind.
  rewrite start_transcription_spec. reflexivity.
Qed.

Lemma handle_start_spec (sid key : string) (d : gmap string string)
    (env : start_env) (w : world) :
  api_key env = Some key → PyStr.truthy key = true →
  handle_start_live_transcription sid (PDict d) env w =
    (Returned tt,
     with_emitted sid transcription_started
       (with_service (next_service w) (started sid (upstream env))
          (with_sessions <[sid := fresh_session (next_service w) d env]>
             (allocated w)))).
Proof.
  intros Hkey Htruthy. unfold handle_start_live_transcription.
  unfold try_except, payload_get.
  unfold mbind at 1, M_bind at 1, bind at 1. unfold mret at 1, M_ret at 1, ret at 1.
  unfold mbind at 1, M_bind at 1, bind at 1.
  rewrite Hkey, (DeepgramService_init_spec _ _ Htruthy).
  unfold mbind at 1, M_bind at 1, bind at 1. unfold modify at 1.
  unfold mbind at 1, M_bind at 1, bind at 1.
  rewrite thread_start_transcription. reflexivity.
Qed.

Lemma handle_start_without_key (sid : string) (data : payload)
    (env : start_env) (w : world) :
  api_key env = None →
  ∃ e, handle_start_live_transcription sid data env w =
         (Returned tt, with_emitted sid (live_transcription_error (StrOf e)) w).
Proof.
  intros Hkey. unfold handle_start_live_transcription, payload_get.
  unfold DeepgramService_init. rewrite Hkey. unfold_py.
  destruct data; simpl; eauto.
Qed.

Lemma handle_disconnect_active (sid : string) (sd : session_data)
    (raises : option string) (w : world) :
  active_transcriptions w !! sid = Some sd →
  handle_disconnect sid raises w =
    (Returned tt,
     with_sessions (delete sid) (with_service (service sd) (set_active false) w)).
Proof.
  intros Hsd. unfold handle_disconnect.
  unfold mbind at 1, M_bind at 1, bind at 1. unfold get_world at 1. rewrite Hsd.
  unfold mbind at 1, M_bind at 1, bind at 1. rewrite finish_spec. reflexivity.
Qed.

Lemma handle_disconnect_missing (sid : string) (raises : option string)
    (w : world) :
  active_transcriptions w !! sid = None →
  handle_disconnect sid raises w = (Returned tt, w).
Proof.
  intros Hnone. unfold handle_disconnect. unfold_py. by rewrite Hnone.
Qed.

(** A stop of a registered session: the thread closes the service, writes
    the file when the summary is there, and ends on [request.sid] before it
    emits or deletes anything. *)
Lemma handle_stop_active (sid : string) (sd : session_data) (env : stop_env)
    (w : world) :
  active_transcriptions w !! sid = Some sd →
  let text := PyStr.strip (final_transcript (service_at w (service sd))) in
  handle_stop_live_transcription sid env w =
    (Returned tt,
     stop_files text env (with_service (service sd) (set_active false) w)).
Proof.
  intros Hsd text. unfold handle_stop_live_transcription, finalize_transcription.
  unfold try_except at 1. unfold mbind at 1, M_bind at 1, bind at 1.
  unfold get_world at 1. rewrite Hsd. unfold thread. unfold try_except at 1.
  unfold mbind at 1, M_bind at 1, bind at 1. rewrite finish_spec. fold text.
  unfold stop_files, stop_summary, recording_file_of. unfold_py.
  destruct (gemini_init_raises env); simpl; [done|].
  destruct (generate_structured_medical_summary _ _); simpl; [|done].
  destruct (write_raises env); simpl; done.
Qed.

(** Called where no request is being handled, the callback raises at its
    first line. *)
Lemma send_transcript_to_client_outside (t : string) (f : bool) (w : world) :
  send_transcript_to_client None t f w
  = (Raised (RuntimeError "Working outside of request context."), w).
Proof. reflexivity. Qed.

Lemma callback_note_event ev s : callback (note_event ev s) = callback s.
Proof. unfold note_event. by destruct ev.2. Qed.

Lemma on_message_spec svc r w :
  on_message svc r w =
    (Returned tt,
     match transcript_event r with
     | Some ev => received svc ev w
     | None => w
     end).
Proof.
  unfold on_message, transcript_event, received.
  destruct (channel r) as [ch|]; [|reflexivity].
  destruct (alternatives ch) as [|alt alts]; [reflexivity|].
  simpl. destruct (PyStr.truthy (transcript alt)) eqn:Ht; simpl.
  2: { reflexivity. }
  unfold try_except.
  destruct (is_final r) eqn:Hf.
  - unfold_py. simpl. rewrite !service_at_with_service. simpl.
    rewrite with_service_twice.
    destruct (callback (service_at w svc)) as [cb|]; reflexivity.
  - unfold_py. simpl. rewrite !service_at_with_service. simpl.
    destruct (callback (service_at w svc)) as [cb|]; reflexivity.
Qed.

Lemma append_cons (x : ascii) (a b : string) :
  String x a +:+ b = String x (a +:+ b).
Proof. reflexivity. Qed.

Lemma append_assoc (a b c : string) : (a +:+ b) +:+ c = a +:+ (b +:+ c).
Proof. induction a as [|x a IH]; [done | by rewrite !append_cons, IH]. Qed.

Lemma append_empty_r (a : string) : a +:+ EmptyString = a.
Proof. induction a as [|x a IH]; [done | by rewrite append_cons, IH]. Qed.

Lemma final_texts_cons (ev : string * bool) (evs : list (string * bool)) :
  final_texts (ev :: evs) =
    if ev.2 then ev.1 :: final_texts evs else final_texts evs.
Proof.
  unfold final_texts. rewrite filter_cons.
  destruct ev as [t [|]]; reflexivity.
Qed.

Lemma final_texts_app (evs1 evs2 : list (string * bool)) :
  final_texts (evs1 ++ evs2) = final_texts evs1 ++ final_texts evs2.
Proof. unfold final_texts. by rewrite filter_app, fmap_app. Qed.

Lemma omap_transcript_cons r rs :
  omap transcript_event (r :: rs) =
    match transcript_event r with
    | Some ev => ev :: omap transcript_event rs
    | None => omap transcript_event rs
    end.
Proof. reflexivity. Qed.

Lemma run_cons i inputs w : run (i :: inputs) w = run inputs (exec (step i) w).
Proof. reflexivity. Qed.

Lemma run_app i1 i2 w : run (i1 ++ i2) w = run i2 (run i1 w).
Proof. unfold run. by rewrite foldl_app. Qed.

Lemma step_transcript svc r w :
  exec (step (Transcript svc r)) w =
    match transcript_event r with Some ev => received svc ev w | None => w end.
Proof. unfold exec. simpl. by rewrite on_message_spec. Qed.

Lemma received_final_transcript svc ev w :
  final_transcript (service_at (received svc ev w) svc) =
    final_transcript (service_at w svc) +:+ spaced_concat (final_texts [ev]).
Proof.
  unfold received. rewrite service_at_with_service, final_texts_cons.
  unfold note_event.
  destruct ev as [t [|]]; simpl; [done | by rewrite append_empty_r].
Qed.

Lemma received_callback svc ev w :
  callback (service_at (received svc ev w) svc) = callback (service_at w svc).
Proof.
  unfold received. by rewrite service_at_with_service, callback_note_event.
Qed.

Lemma spaced_concat_app (l1 l2 : list string) :
  spaced_concat (l1 ++ l2) = spaced_concat l1 +:+ spaced_concat l2.
Proof.
  induction l1 as [|t l1 IH]; simpl; [done|]. by rewrite IH, !append_assoc.
Qed.

Lemma run_transcripts_final svc rs : ∀ w,
  final_transcript (service_at (run (Transcript svc <$> rs) w) svc) =
    final_transcript (service_at w svc)
    +:+ spaced_concat (final_texts (omap transcript_event rs)).
Proof.
  induction rs as [|r rs IH]; intros w.
  - simpl. by rewrite append_empty_r.
  - rewrite fmap_cons, run_cons, IH, step_transcript, omap_transcript_cons.
    destruct (transcript_event r) as [ev|]; [|done].
    rewrite received_final_transcript, append_assoc, <- spaced_concat_app.
    by rewrite <- final_texts_app.
Qed.

(** Upstream results touch the service objects only. *)
Lemma run_transcripts_silent (svc : nat) (rs : list dg_result) : ∀ w : world,
  let w' := run (Transcript svc <$> rs) w in
  emitted w' = emitted w
  ∧ active_transcriptions w' = active_transcriptions w
  ∧ files w' = files w.
Proof.
  induction rs as [|r rs IH]; intros w; [done|].
  rewrite fmap_cons, run_cons, step_transcript.
  destruct (transcript_event r) as [ev|]; [|by apply IH].
  apply (IH (received svc ev w)).
Qed.

(** ** The summary parser *)

(** The parser in one equation: a brace pair is cut out and decoded, and
    the fallback dict is returned only when a brace is missing. *)
Lemma summary_parser_equation (reply translation : string) :
  let text := PyStr.strip reply in
  generate_structured_medical_summary (GeminiText reply) translation =
    match PyStr.index_of "{" text, PyStr.rindex_of "}" text with
    | Some i, Some j =>
        match Json.loads (PyStr.slice text (Z.of_nat i) (Z.of_nat j + 1)) with
        | Some summary => Returned summary
        | None => Raised JSONDecodeError
        end
    | _, _ => Returned (fallback_summary translation)
    end.
Proof.
  intros text. unfold generate_structured_medical_summary, PyStr.find, PyStr.rfind.
  fold text.
  destruct (PyStr.index_of "{" text) as [i|], (PyStr.rindex_of "}" text) as [j|];
    simpl; try reflexivity.
  - replace (Z.of_nat i =? -1)%Z with false by (symmetry; apply Z.eqb_neq; lia).
    replace (Z.of_nat j =? -1)%Z with false by (symmetry; apply Z.eqb_neq; lia).
    reflexivity.
  - replace (Z.of_nat i =? -1)%Z with false by (symmetry; apply Z.eqb_neq; lia).
    reflexivity.
Qed.

Example sample_reply_parses :
  generate_structured_medical_summary (GeminiText Sample.reply) "patient reports fever"
  = Returned (JObject [("summary", JString "Patient reports fever");
                       ("medical_condition", JString "Fever");
                       ("treatment_plan", JString "Not specified");
                       ("followup_date", JString "Not specified")]).
Proof. vm_compute. reflexivity. Qed.

(** ** Starting a session *)

Lemma start_accepts (sid key : string) (d : gmap string string)
    (env : start_env) (w : world) :
  api_key env = Some key → PyStr.truthy key = true →
  let w' := exec (handle_start_live_transcription sid (PDict d) env) w in
  eval (handle_start_live_transcription sid (PDict d) env) w = Returned tt
  ∧ emitted_since w w' = [(sid, transcription_started)]
  ∧ active_transcriptions w' =
      <[sid := fresh_session (next_service w) d env]> (active_transcriptions w)
  ∧ service_at w' (next_service w) = started sid (upstream env) new_service.
Proof.
  intros Hkey Htruthy. unfold exec, eval.
  rewrite (handle_start_spec _ _ _ _ _ Hkey Htruthy). simpl.
  split; [done|]. split; [|split; [done|]].
  - unfold emitted_since. simpl. by rewrite drop_app_length.
  - unfold service_at at 1. simpl. rewrite lookup_insert_eq. simpl.
    unfold service_at, allocated. simpl. by rewrite lookup_insert_eq.
Qed.

Lemma dictated_session :
  active_transcriptions Sample.dictated !! Sample.sid = Some Sample.session.
Proof. vm_compute. reflexivity. Qed.

(** ** The sample session *)

Lemma listening_session :
  active_transcriptions Sample.listening !! Sample.sid = Some Sample.session.
Proof. vm_compute. reflexivity. Qed.

Lemma listening_final_transcript :
  final_transcript (service_at Sample.listening (service Sample.session))
  = EmptyString.
Proof. vm_compute. reflexivity. Qed.

(** Interim results add nothing to the final texts. *)
Lemma final_texts_interims (ts : list string) :
  final_texts (omap transcript_event (flip text_result false <$> ts)) = [].
Proof.
  induction ts as [|t ts IH]; [done|].
  rewrite fmap_cons, omap_transcript_cons. unfold transcript_event at 1. simpl.
  destruct (PyStr.truthy t); [|exact IH].
  by rewrite final_texts_cons.
Qed.

Lemma omap_transcript_app rs1 rs2 :
  omap transcript_event (rs1 ++ rs2)
  = omap transcript_event rs1 ++ omap transcript_event rs2.
Proof.
  induction rs1 as [|r rs1 IH]; [done|].
  rewrite <- app_comm_cons, !omap_transcript_cons, IH.
  by destruct (transcript_event r).
Qed.

(** ** The steps of the process, one by one *)

Lemma send_audio_spec (self : nat) (audio_data : string)
    (raises : option string) (w : world) :
  send_audio self audio_data raises w =
    let s := service_at w self in
    if bool_decide (is_Some (connection s)) && active s && bool_decide (raises = None)
    then (Returned true, with_service self (forward audio_data) w)
    else (Returned false, w).
Proof.
  unfold send_audio. unfold_py. simpl.
  destruct (connection (service_at w self)) as [c|] eqn:Hc; simpl; [|done].
  destruct (active (service_at w self)); simpl; [|done].
  destruct raises; simpl; [done|].
  unfold with_service, forward. by rewrite Hc.
Qed.

Lemma handle_audio_chunk_spec (sid : string) (data : payload) (env : audio_env)
    (w : world) :
  handle_audio_chunk sid data env w =
    (Returned tt,
     match active_transcriptions w !! sid, forwarded_chunk (data, env) with
     | Some sd, Some b =>
         if live_service (service_at w (service sd))
         then with_service (service sd) (forward b) w
         else w
     | _, _ => w
     end).
Proof.
  unfold handle_audio_chunk, forwarded_chunk, live_service, payload_get.
  unfold try_except, mbind at 1, M_bind at 1, bind at 1, get_world at 1.
  destruct (active_transcriptions w !! sid) as [sd|]; [|reflexivity].
  destruct data as [|d]; simpl; [reflexivity|].
  destruct (decoded env) as [b|]; simpl; [|reflexivity].
  unfold thread, try_except.
  unfold mbind, M_bind, bind, mret, M_ret, ret. rewrite send_audio_spec. simpl.
  destruct (send_raises env); simpl.
  - rewrite andb_false_r. done.
  - rewrite andb_true_r.
    by destruct (bool_decide _ && active _).
Qed.

Lemma forward_keeps_transcript (b : string) (s : DeepgramService) :
  final_transcript (forward b s) = final_transcript s
  ∧ last_interim (forward b s) = last_interim s
  ∧ active (forward b s) = active s
  ∧ callback (forward b s) = callback s
  ∧ live_service (forward b s) = live_service s.
Proof.
  unfold forward, live_service.
  destruct (connection s) eqn:Hc; simpl; rewrite ?Hc; repeat split; done.
Qed.

Lemma service_at_with_service_cases (a b : nat) f (w : world) :
  service_at (with_service a f w) b
  = if decide (a = b) then f (service_at w b) else service_at w b.
Proof.
  case_decide as Hab.
  - subst. apply service_at_with_service.
  - by apply service_at_with_service_ne.
Qed.

Lemma exec_handle_start_cases (sid : string) (data : payload) (env : start_env)
    (w : world) :
  (∃ e, exec (handle_start_live_transcription sid data env) w
        = with_emitted sid (live_transcription_error (StrOf e)) w)
  ∨ (∃ d, exec (handle_start_live_transcription sid data env) w
          = with_emitted sid transcription_started
              (with_service (next_service w) (started sid (upstream env))
                 (with_sessions <[sid := fresh_session (next_service w) d env]>
                    (allocated w)))).
Proof.
  unfold exec. destruct data as [|d].
  - left. by eexists.
  - destruct (api_key env) as [key|] eqn:Hkey.
    + destruct (PyStr.truthy key) eqn:Htruthy.
      * right. exists d. by rewrite (handle_start_spec sid key d env w Hkey Htruthy).
      * left. eexists. unfold handle_start_live_transcription, payload_get.
        unfold DeepgramService_init. rewrite Hkey, Htruthy. reflexivity.
    + left. destruct (handle_start_without_key sid (PDict d) env w Hkey) as [e ->].
      by exists e.
Qed.

Lemma exec_handle_stop_cases (sid : string) (env : stop_env) (w : world) :
  match active_transcriptions w !! sid with
  | None =>
      exec (handle_stop_live_transcription sid env) w
      = with_emitted sid
          (live_transcription_error (Literal "No active transcription session")) w
  | Some sd =>
      let text := PyStr.strip (final_transcript (service_at w (service sd))) in
      exec (handle_stop_live_transcription sid env) w
      = stop_files text env (with_service (service sd) (set_active false) w)
  end.
Proof.
  unfold exec. destruct (active_transcriptions w !! sid) as [sd|] eqn:Hsd.
  - by rewrite (handle_stop_active _ _ env _ Hsd).
  - unfold handle_stop_live_transcription. unfold_py. by rewrite Hsd.
Qed.

Lemma exec_handle_disconnect_cases (sid : string) (raises : option string)
    (w : world) :
  exec (handle_disconnect sid raises) w
  = match active_transcriptions w !! sid with
    | Some sd =>
        with_sessions (delete sid)
          (with_service (service sd) (set_active false) w)
    | None => w
    end.
Proof.
  unfold exec. destruct (active_transcriptions w !! sid) as [sd|] eqn:Hsd.
  - by rewrite (handle_disconnect_active _ _ _ _ Hsd).
  - by rewrite (handle_disconnect_missing _ _ _ Hsd).
Qed.

Lemma stop_files_projections (text : string) (env : stop_env) (w : world) :
  active_transcriptions (stop_files text env w) = active_transcriptions w
  ∧ emitted (stop_files text env w) = emitted w
  ∧ services (stop_files text env w) = services w.
Proof. unfold stop_files. by destruct (stop_summary text env). Qed.

Lemma exec_transcript_cases (svc : nat) (r : dg_result) (w : world) :
  exec (step (Transcript svc r)) w = w
  ∨ ∃ ev, exec (step (Transcript svc r)) w = received svc ev w.
Proof.
  rewrite step_transcript. destruct (transcript_event r) as [ev|]; [|by left].
  right. by exists ev.
Qed.

Lemma exec_handle_audio_chunk_cases (sid : string) (data : payload)
    (env : audio_env) (w : world) :
  exec (handle_audio_chunk sid data env) w = w
  ∨ ∃ a b, exec (handle_audio_chunk sid data env) w
           = with_service a (forward b) w.
Proof.
  unfold exec. rewrite handle_audio_chunk_spec. simpl.
  destruct (active_transcriptions w !! sid) as [sd|]; [|by left].
  destruct (forwarded_chunk (data, env)) as [b|]; [|by left].
  destruct (live_service _); [|by left]. right. by exists (service sd), b.
Qed.

Lemma service_at_same_services (w w' : world) (a : nat) :
  services w' = services w → service_at w' a = service_at w a.
Proof. unfold service_at. by intros ->. Qed.

Lemma final_transcript_note_event ev s :
  final_transcript (note_event ev s)
  = final_transcript s +:+ spaced_concat (final_texts [ev]).
Proof.
  rewrite final_texts_cons. unfold note_event.
  destruct ev as [t [|]]; simpl; [done | by rewrite append_empty_r].
Qed.

(** One step, seen from a service that exists already: its transcript
    grows by the final text of a result that arrives on it and is left
    alone by every other input; no address is given away twice. *)
Lemma step_final_transcript (i : input) (svc : nat) (w : world) :
  (svc < next_service w)%nat →
  let w' := exec (step i) w in
  (next_service w ≤ next_service w')%nat
  ∧ final_transcript (service_at w' svc)
    = final_transcript (service_at w svc)
      +:+ spaced_concat (final_texts (events_on svc [i])).
Proof.
  intros Hsvc. unfold events_on.
  destruct i as [sid | sid raises | sid data env | sid data env
                | sid env | a r]; simpl omap; simpl step.
  - by rewrite append_empty_r.
  - rewrite exec_handle_disconnect_cases, append_empty_r.
    destruct (active_transcriptions w !! sid) as [sd|]; [|done].
    split; [done|]. simpl.
    change (service_at (with_sessions (delete sid)
                          (with_service (service sd) (set_active false) w)) svc)
      with (service_at (with_service (service sd) (set_active false) w) svc).
    rewrite service_at_with_service_cases. by case_decide.
  - rewrite append_empty_r.
    destruct (exec_handle_start_cases sid data env w) as [[e ->] | [d ->]];
      [done|].
    split; [simpl; lia|].
    change (service_at (with_emitted sid transcription_started ?w0) svc)
      with (service_at w0 svc).
    rewrite service_at_with_service_ne by lia.
    unfold service_at, allocated. simpl. by rewrite lookup_insert_ne by lia.
  - rewrite append_empty_r.
    destruct (exec_handle_audio_chunk_cases sid data env w)
      as [-> | (a & b & ->)]; [done|].
    split; [done|]. rewrite service_at_with_service_cases.
    case_decide; [|done].
    by destruct (forward_keeps_transcript b (service_at w svc)) as (-> & _).
  - rewrite append_empty_r. pose proof (exec_handle_stop_cases sid env w) as Hstop.
    destruct (active_transcriptions w !! sid) as [sd|]; rewrite Hstop; [|done].
    split; [unfold stop_files; by destruct (stop_summary _ env)|].
    rewrite (service_at_same_services
               (with_service (service sd) (set_active false) w))
      by apply stop_files_projections.
    rewrite service_at_with_service_cases. by case_decide.
  - change (on_message a r) with (step (Transcript a r)).
    rewrite step_transcript. unfold result_on. case_decide as Ha.
    + subst a. destruct (transcript_event r) as [ev|]; simpl.
      * split; [done|]. unfold received.
        by rewrite service_at_with_service, final_transcript_note_event.
      * by rewrite append_empty_r.
    + rewrite append_empty_r.
      destruct (transcript_event r) as [ev|]; [|done].
      split; [done|]. unfold received.
      by rewrite service_at_with_service_ne.
Qed.

Lemma events_on_cons svc i inputs :
  events_on svc (i :: inputs) = events_on svc [i] ++ events_on svc inputs.
Proof. unfold events_on. simpl. by destruct (result_on svc i). Qed.

(** Any run, seen from a service that exists already. *)
Lemma run_final_transcript (inputs : list input) : ∀ (w : world) (svc : nat),
  (svc < next_service w)%nat →
  final_transcript (service_at (run inputs w) svc)
  = final_transcript (service_at w svc)
    +:+ spaced_concat (final_texts (events_on svc inputs)).
Proof.
  induction inputs as [|i inputs IH]; intros w svc Hsvc.
  - simpl. by rewrite append_empty_r.
  - destruct (step_final_transcript i svc w Hsvc) as (Hnext & Hstep).
    rewrite run_cons, IH by lia.
    rewrite Hstep, (events_on_cons svc i inputs), final_texts_app,
      spaced_concat_app, append_assoc. done.
Qed.

Lemma step_unwritten (i : input) (w : world) :
  (∀ sid sd, active_transcriptions w !! sid = Some sd → unwritten sd) →
  ∀ sid sd, active_transcriptions (exec (step i) w) !! sid = Some sd →
            unwritten sd.
Proof.
  intros Hw sid sd.
  destruct i as [sid' | sid' raises | sid' data env | sid' data env
                | sid' env | a r]; simpl step.
  - apply Hw.
  - rewrite exec_handle_disconnect_cases.
    destruct (active_transcriptions w !! sid'); [|apply Hw]. simpl.
    intros [_ Hsd]%lookup_delete_Some. by apply (Hw sid).
  - destruct (exec_handle_start_cases sid' data env w) as [[e ->] | [d ->]];
      [apply Hw|]. simpl.
    intros [[_ <-] | [_ Hsd]]%lookup_insert_Some; [done | by apply (Hw sid)].
  - destruct (exec_handle_audio_chunk_cases sid' data env w)
      as [-> | (a & b & ->)]; apply Hw.
  - pose proof (exec_handle_stop_cases sid' env w) as Hstop.
    destruct (active_transcriptions w !! sid') as [sd'|]; rewrite Hstop;
      [|apply Hw].
    destruct (stop_files_projections
                (PyStr.strip (final_transcript (service_at w (service sd'))))
                env (with_service (service sd') (set_active false) w))
      as (-> & _). apply Hw.
  - change (on_message a r) with (step (Transcript a r)).
    rewrite step_transcript. destruct (transcript_event r); apply Hw.
Qed.

(** The buffers of the sessions stay as the start left them along every
    run. *)
Lemma run_unwritten (inputs : list input) : ∀ w : world,
  (∀ sid sd, active_transcriptions w !! sid = Some sd → unwritten sd) →
  ∀ sid sd, active_transcriptions (run inputs w) !! sid = Some sd →
            unwritten sd.
Proof.
  induction inputs as [|i inputs IH]; intros w Hw; [exact Hw|].
  rewrite run_cons. apply IH. by apply step_unwritten.
Qed.

Lemma final_texts_interim_events (ts : list string) :
  final_texts ((λ t, (t, false)) <$> ts) = [].
Proof.
  induction ts as [|t ts IH]; [done|]. by rewrite fmap_cons, final_texts_cons.
Qed.

Lemma history_session :
  active_transcriptions (run Sample.history empty_world) !! Sample.sid
  = Some Sample.session.
Proof. vm_compute. reflexivity. Qed.

Lemma listening_service_exists :
  (service Sample.session < next_service Sample.listening)%nat.
Proof. vm_compute. lia. Qed.

Lemma results_session :
  active_transcriptions (run (Transcript 0 <$> Sample.results) Sample.listening)
    !! Sample.sid
  = Some Sample.session.
Proof. vm_compute. reflexivity. Qed.

Lemma results_events :
  events_on (service Sample.session) (Transcript 0 <$> Sample.results)
  = ((λ t, (t, false)) <$> ["patient"; "patient reports"])
    ++ [("patient reports fever", true)].
Proof. vm_compute. reflexivity. Qed.

(** * The claims *)

(** C1 (the claim fails; counterexample). The identifier [sid-1] has a
    session; a second start for [sid-1] is answered
    [transcription_started], not an error, and the registry entry is
    replaced by a fresh session with a new service. *)
Lemma second_start_is_not_rejected :
  let w1 := Sample.dictated in
  let w2 := exec (handle_start_live_transcription Sample.sid
                    (PDict Sample.en_US) Sample.live) w1 in
  active_transcriptions w1 !! Sample.sid = Some Sample.session
  ∧ emitted_since w1 w2 = [(Sample.sid, transcription_started)]
  ∧ active_transcriptions w2 !! Sample.sid
    = Some (fresh_session 1 Sample.en_US Sample.live)
  ∧ active_transcriptions w2 ≠ active_transcriptions w1.
Proof.
  assert (H2 : active_transcriptions
                 (exec (handle_start_live_transcription Sample.sid
                          (PDict Sample.en_US) Sample.live) Sample.dictated)
               !! Sample.sid = Some (fresh_session 1 Sample.en_US Sample.live))
    by (vm_compute; reflexivity).
  split; [exact dictated_session|]. split; [vm_compute; reflexivity|].
  split; [exact H2|].
  intros Heq. rewrite Heq, dictated_session in H2. discriminate H2.
Qed.

(** C1 (amended). For an identifier that already has a session, a second
    start with a dict payload and the API key configured is not rejected:
    it returns normally, is answered by exactly one [transcription_started],
    replaces the entry of the identifier by a fresh session (new service,
    empty buffers), leaves every other entry alone, and the registry keeps
    exactly one entry for the identifier and the same number of entries. *)
Theorem second_start_replaces_session (sid key : string) (sd : session_data)
    (d : gmap string string) (env : start_env) (w : world) :
  active_transcriptions w !! sid = Some sd →
  api_key env = Some key → PyStr.truthy key = true →
  let w' := exec (handle_start_live_transcription sid (PDict d) env) w in
  eval (handle_start_live_transcription sid (PDict d) env) w = Returned tt
  ∧ emitted_since w w' = [(sid, transcription_started)]
  ∧ active_transcriptions w' !! sid = Some (fresh_session (next_service w) d env)
  ∧ (∀ other, other ≠ sid →
       active_transcriptions w' !! other = active_transcriptions w !! other)
  ∧ size (active_transcriptions w') = size (active_transcriptions w).
Proof.
  intros Hsd Hkey Htruthy w'.
  destruct (start_accepts sid key d env w Hkey Htruthy) as (Hret & Hem & Hreg & _).
  fold w' in Hem, Hreg. split; [done|]. split; [done|]. rewrite Hreg.
  split; [apply lookup_insert_eq|]. split.
  - intros other Hne. by apply lookup_insert_ne.
  - by apply map_size_insert_Some.
Qed.

(** The amended claim on the sample session after its three results. *)
Lemma second_start_replaces_session_witness :
  emitted_since Sample.dictated
    (exec (handle_start_live_transcription Sample.sid (PDict Sample.en_US) Sample.live)
       Sample.dictated)
  = [(Sample.sid, transcription_started)].
Proof.
  exact (proj1 (proj2 (second_start_replaces_session Sample.sid "dg-key" _
                         Sample.en_US Sample.live Sample.dictated
                         dictated_session eq_refl eq_refl))).
Defined.

(** C2 (the code departs from the claim). The claim: when establishing
    the upstream connection fails during a start, the client gets an error
    event instead of a success reply. The code: whatever creating and
    starting the connection did, the start is answered by exactly one
    [transcription_started] and the session is registered; only the
    [active] flag of the service tells whether the upstream started. *)
Theorem start_reply_ignores_upstream (sid : string) (d : gmap string string)
    (up : upstream_start) (now : nat) (w : world) :
  let env := {| api_key := Some "dg-key"; upstream := up; utcnow := now |} in
  let w' := exec (handle_start_live_transcription sid (PDict d) env) w in
  emitted_since w w' = [(sid, transcription_started)]
  ∧ active_transcriptions w' !! sid = Some (fresh_session (next_service w) d env)
  ∧ active (service_at w' (next_service w)) = start_succeeds up.
Proof.
  intros env w'.
  destruct (start_accepts sid "dg-key" d env w eq_refl eq_refl)
    as (_ & Hem & Hreg & Hsvc).
  fold w' in Hem, Hreg, Hsvc. split; [done|]. split.
  - rewrite Hreg. apply lookup_insert_eq.
  - rewrite Hsvc. by destruct up as [msg | [[|] | msg]].
Qed.

(** The same on the empty state with an unreachable speech service. *)
Example unreachable_upstream_start :
  let env := Sample.started_with (ConnectRaises "connection refused") in
  let w := exec (handle_start_live_transcription Sample.sid
                   (PDict Sample.en_US) env) empty_world in
  emitted w = [(Sample.sid, transcription_started)]
  ∧ active (service_at w 0) = false.
Proof. vm_compute. done. Qed.




(** C4 (the code departs from the claim). The claim: the parser cuts the
    text from the first opening brace to the last closing brace, decodes
    it as JSON, and returns placeholder fields when there is no brace pair
    or when decoding fails, never raising. The code returns the
    placeholders only when a brace is missing: on a brace pair whose
    contents do not decode, and on a closing brace that precedes the only
    opening brace, [json.loads] raises and nothing catches it. *)
Theorem summary_parser_raises_on_invalid_json :
  generate_structured_medical_summary
    (GeminiText "Summary: {fever, rest at home}") "patient reports fever"
  = Raised JSONDecodeError
  ∧ generate_structured_medical_summary (GeminiText "} {") "patient reports fever"
    = Raised JSONDecodeError.
Proof. split; vm_compute; reflexivity. Qed.

(** C5 (the code departs from the claim). The claim: after any sequence of
    transcript events the buffer [transcript_parts] of the session holds
    the texts of the final events in arrival order. The code: the callback
    reads [request.sid] on the event loop of the SDK and raises at its
    first line, [on_message] swallows the exception, and so no upstream
    result ever changes a session or reaches a client; only the transcript
    of the service object grows. In every state the process reaches from
    its start, whatever the inputs were, [transcript_parts] and
    [interim_transcript] of every session are empty. *)
Theorem results_never_reach_the_session (svc : nat) (rs : list dg_result)
    (w : world) (inputs : list input) :
  let w' := run (Transcript svc <$> rs) w in
  active_transcriptions w' = active_transcriptions w
  ∧ emitted w' = emitted w
  ∧ final_transcript (service_at w' svc)
    = final_transcript (service_at w svc)
      +:+ spaced_concat (final_texts (omap transcript_event rs))
  ∧ ∀ sid sd,
      active_transcriptions (run inputs empty_world) !! sid = Some sd →
      transcript_parts sd = [] ∧ interim_transcript sd = EmptyString.
Proof.
  intros w'. subst w'.
  destruct (run_transcripts_silent svc rs w) as (Hem & Hreg & _).
  split; [done|]. split; [done|]. split; [apply run_transcripts_final|].
  apply (run_unwritten inputs empty_world). intros sid sd Hsd.
  simpl in Hsd. by rewrite lookup_empty in Hsd.
Qed.

(** The session the sample history leaves, after its final result
    [patient reports fever]. *)
Lemma results_never_reach_the_session_witness :
  transcript_parts Sample.session = []
  ∧ interim_transcript Sample.session = EmptyString.
Proof.
  destruct (results_never_reach_the_session 0 [] empty_world Sample.history)
    as (_ & _ & _ & Hunwritten).
  exact (Hunwritten Sample.sid Sample.session history_session).
Defined.

(** There the final text is in the transcript of the service only. *)
Example sample_buffer_stays_empty :
  (transcript_parts <$> active_transcriptions Sample.dictated !! Sample.sid)
  = Some []
  ∧ final_transcript (service_at Sample.dictated 0) = "patient reports fever ".
Proof. vm_compute. done. Qed.

(** C6 (the code departs from the claim). The claim: the stop delivers the
    final texts, each followed by one space, concatenated and stripped, as
    [original_transcript] of [live_transcription_complete]. The code
    computes that text, whatever other inputs came between the results:
    [finish] returns it and, when summary and write succeed, the transcript
    file holds it; but the thread of the stop raises at [room=request.sid],
    so the stop emits no event at all. After interim results followed by
    one final result [patient reports fever] on a fresh service the text is
    [patient reports fever]. *)
Theorem stop_computes_but_never_delivers (sid : string) (sd : session_data)
    (inputs : list input) (env : stop_env) (w : world) :
  let w1 := run inputs w in
  let w2 := exec (handle_stop_live_transcription sid env) w1 in
  let text :=
    PyStr.strip (final_transcript (service_at w (service sd))
                 +:+ spaced_concat
                       (final_texts (events_on (service sd) inputs))) in
  (service sd < next_service w)%nat →
  active_transcriptions w1 !! sid = Some sd →
  eval (finish (service sd) (finish_raises env)) w1 = Returned text
  ∧ emitted_since w1 w2 = []
  ∧ (∀ summary,
       gemini_init_raises env = None →
       generate_structured_medical_summary (gemini env) text = Returned summary →
       write_raises env = None →
       files w2 = files w1
                  ++ [("recordings/live_" +:+ timestamp env +:+ ".txt", text)])
  ∧ (∀ interims : list string,
       final_transcript (service_at w (service sd)) = EmptyString →
       events_on (service sd) inputs
       = ((λ t, (t, false)) <$> interims) ++ [("patient reports fever", true)] →
       text = "patient reports fever").
Proof.
  intros w1 w2 text Hsvc Hsd1.
  assert (Hfinal : PyStr.strip (final_transcript (service_at w1 (service sd)))
                   = text).
  { subst w1 text. by rewrite run_final_transcript. }
  assert (Hstop : w2 = stop_files text env
                         (with_service (service sd) (set_active false) w1)).
  { subst w2. unfold exec. rewrite (handle_stop_active _ _ env _ Hsd1).
    by rewrite Hfinal. }
  split; [|split; [|split]].
  - unfold eval. rewrite finish_spec. simpl. by rewrite Hfinal.
  - rewrite Hstop. unfold emitted_since, stop_files.
    destruct (stop_summary text env); simpl; apply drop_all.
  - intros summary Hinit Hsum Hwrite. rewrite Hstop.
    unfold stop_files, stop_summary, recording_file_of.
    by rewrite Hinit, Hsum, Hwrite.
  - intros interims Hempty Hevents. subst text. rewrite Hempty, Hevents.
    by rewrite final_texts_app, final_texts_interim_events.
Qed.

(** The scenario of the specification, from the empty state to the stop:
    nothing is emitted by the stop. *)
Lemma stop_computes_but_never_delivers_witness :
  emitted_since Sample.dictated
    (exec (handle_stop_live_transcription Sample.sid
             (Sample.stopped_with (GeminiText Sample.reply))) Sample.dictated)
  = []
  ∧ eval (finish 0 None) Sample.dictated = Returned "patient reports fever".
Proof.
  destruct (stop_computes_but_never_delivers Sample.sid Sample.session
              (Transcript 0 <$> Sample.results)
              (Sample.stopped_with (GeminiText Sample.reply))
              Sample.listening listening_service_exists results_session)
    as (Hfinish & Hemitted & _ & Htext).
  split; [exact Hemitted|].
  refine (eq_trans Hfinish _).
  exact (f_equal Returned
           (Htext ["patient"; "patient reports"] listening_final_transcript
              results_events)).
Defined.



(** C8. [finish] on a service to which no audio was sent and for which
    no transcript result arrived returns the empty string, whether or not
    [start_transcription] ran, whatever the upstream answered, and whether
    or not closing the connection raises. *)
Theorem finish_without_audio_returns_empty (key cb : string)
    (up : upstream_start) (opened : bool) (raises : option string) (w : world) :
  PyStr.truthy key = true →
  eval (svc ← DeepgramService_init (Some key);
        (if opened then start_transcription svc cb up else mret false);;
        finish svc raises) w
  = Returned EmptyString.
Proof.
  intros Hkey. unfold eval.
  unfold mbind at 1, M_bind at 1, bind at 1.
  rewrite (DeepgramService_init_spec _ _ Hkey).
  unfold mbind at 1, M_bind at 1, bind at 1.
  destruct opened.
  - rewrite start_transcription_spec, finish_spec, service_at_with_service.
    by destruct up as [msg | [[|] | msg]].
  - unfold mret, M_ret, ret. rewrite finish_spec. simpl.
    unfold service_at, allocated. simpl. by rewrite lookup_insert_eq.
Qed.

(** A service created, started and closed at once. *)
Lemma finish_without_audio_witness :
  eval (svc ← DeepgramService_init (Some "dg-key");
        start_transcription svc Sample.sid (Connected (StartReturns true));;
        finish svc None) empty_world
  = Returned EmptyString.
Proof.
  apply (finish_without_audio_returns_empty "dg-key" Sample.sid
           (Connected (StartReturns true)) true None empty_world).
  reflexivity.
Defined.

(** C9. A disconnect returns normally and leaves no entry for the
    identifier; when there was none it changes nothing; a start that
    follows for the same identifier is answered [transcription_started]
    and registers a fresh session. *)
Theorem disconnect_frees_identifier (sid : string) (raises : option string)
    (w : world) :
  let w1 := exec (handle_disconnect sid raises) w in
  eval (handle_disconnect sid raises) w = Returned tt
  ∧ active_transcriptions w1 !! sid = None
  ∧ (active_transcriptions w !! sid = None → w1 = w)
  ∧ ∀ (key : string) (d : gmap string string) (env : start_env),
      api_key env = Some key → PyStr.truthy key = true →
      let w2 := exec (handle_start_live_transcription sid (PDict d) env) w1 in
      emitted_since w1 w2 = [(sid, transcription_started)]
      ∧ active_transcriptions w2 !! sid
        = Some (fresh_session (next_service w1) d env).
Proof.
  intros w1. subst w1. unfold exec, eval.
  destruct (active_transcriptions w !! sid) as [sd|] eqn:Hsd.
  - rewrite (handle_disconnect_active _ _ _ _ Hsd). simpl.
    split; [done|]. split; [apply lookup_delete_eq|]. split; [done|].
    intros key d env Hkey Htruthy.
    destruct (start_accepts sid key d env
                (with_sessions (delete sid)
                   (with_service (service sd) (set_active false) w))
                Hkey Htruthy) as (_ & Hem & Hreg & _).
    split; [exact Hem|]. unfold exec in Hreg. rewrite Hreg.
    by rewrite lookup_insert_eq.
  - rewrite (handle_disconnect_missing _ _ _ Hsd). simpl.
    split; [done|]. split; [done|]. split; [done|].
    intros key d env Hkey Htruthy.
    destruct (start_accepts sid key d env w Hkey Htruthy) as (_ & Hem & Hreg & _).
    split; [exact Hem|]. unfold exec in Hreg. rewrite Hreg.
    by rewrite lookup_insert_eq.
Qed.

(** The sample session disconnected in the middle, then started again. *)
Lemma disconnect_frees_identifier_witness :
  active_transcriptions Sample.dictated !! Sample.sid ≠ None
  ∧ emitted_since (exec (handle_disconnect Sample.sid None) Sample.dictated)
      (exec (handle_start_live_transcription Sample.sid (PDict Sample.en_US) Sample.live)
         (exec (handle_disconnect Sample.sid None) Sample.dictated))
    = [(Sample.sid, transcription_started)].
Proof.
  split; [vm_compute; discriminate|].
  destruct (disconnect_frees_identifier Sample.sid None Sample.dictated)
    as (_ & _ & _ & Hstart).
  exact (proj1 (Hstart "dg-key" Sample.en_US Sample.live eq_refl eq_refl)).
Defined.

(** C10 (the code departs from the claim). The claim: after a stop of an
    active session its entry is gone from the registry, whatever the
    summary and the write did. The code: the thread of the stop raises at
    [room=request.sid], in the [try] or in the [except] branch, before it
    reaches the [del]; the handler returns normally and the entry stays as
    it was, with its service closed. *)
Theorem stop_leaves_the_session_registered (sid : string) (sd : session_data)
    (env : stop_env) (w : world) :
  active_transcriptions w !! sid = Some sd →
  let w1 := exec (handle_stop_live_transcription sid env) w in
  eval (handle_stop_live_transcription sid env) w = Returned tt
  ∧ active_transcriptions w1 = active_transcriptions w
  ∧ active (service_at w1 (service sd)) = false.
Proof.
  intros Hsd w1. subst w1. unfold exec, eval.
  rewrite (handle_stop_active _ _ env _ Hsd). simpl.
  unfold stop_files.
  destruct (stop_summary _ env); simpl; (split; [done|]); (split; [done|]);
    unfold service_at; simpl; by rewrite lookup_insert_eq.
Qed.

(** The sample session stopped with a well-formed summary: the entry is
    still there. *)
Lemma stop_leaves_the_session_registered_witness :
  active_transcriptions
    (exec (handle_stop_live_transcription Sample.sid
             (Sample.stopped_with (GeminiText Sample.reply)))
       Sample.dictated) !! Sample.sid
  = Some Sample.session.
Proof.
  destruct (stop_leaves_the_session_registered Sample.sid Sample.session
              (Sample.stopped_with (GeminiText Sample.reply)) Sample.dictated
              dictated_session) as (_ & Hreg & _).
  exact (eq_trans (f_equal (λ m : gmap string session_data, m !! Sample.sid) Hreg)
           dictated_session).
Defined.

(** * Further properties *)

(** ** The service object *)

(** X1. [send_audio] on a service that has no connection or is not active
    returns [False] and changes nothing, whether or not the upstream send
    would raise. *)
Theorem send_audio_needs_live_connection (self : nat) (audio_data : string)
    (raises : option string) (w : world) :
  connection (service_at w self) = None ∨ active (service_at w self) = false →
  send_audio self audio_data raises w = (Returned false, w).
Proof.
  intros Hdead. rewrite send_audio_spec. simpl.
  destruct Hdead as [-> | ->]; simpl; [done|].
  by rewrite andb_false_r.
Qed.

Lemma send_audio_needs_live_connection_witness :
  send_audio 0 "pcm" None empty_world = (Returned false, empty_world).
Proof.
  exact (send_audio_needs_live_connection 0 "pcm" None empty_world
           (or_introl eq_refl)).
Defined.

(** X2. After [finish], whether or not closing the connection raised,
    [is_active] answers [False] and [send_audio] refuses every chunk without
    changing anything, while the accumulated transcript and the callback of
    the service are kept. *)
Theorem finish_closes_the_service (self : nat) (raises send_raises : option string)
    (audio_data : string) (w : world) :
  let w1 := exec (finish self raises) w in
  eval (is_active self) w1 = Returned false
  ∧ send_audio self audio_data send_raises w1 = (Returned false, w1)
  ∧ final_transcript (service_at w1 self) = final_transcript (service_at w self)
  ∧ callback (service_at w1 self) = callback (service_at w self).
Proof.
  intros w1. subst w1. unfold exec, eval. rewrite finish_spec. simpl.
  split; [|split; [|split]].
  - unfold is_active. unfold_py. by rewrite service_at_with_service.
  - rewrite send_audio_spec. simpl. rewrite service_at_with_service. simpl.
    by rewrite andb_false_r.
  - by rewrite service_at_with_service.
  - by rewrite service_at_with_service.
Qed.

(** X3. [start_transcription] returns [True] exactly when
    [connection.start] returned a true value; it never raises; it empties
    the final transcript and the last interim, installs the callback, and
    never clears [active]: the flag is the earlier one or-ed with the
    success. A successful start begins with a connection that has forwarded
    no audio. *)
Theorem start_transcription_outcome (self : nat) (cb : string)
    (up : upstream_start) (w : world) :
  let s := service_at w self in
  let s' := service_at (exec (start_transcription self cb up) w) self in
  eval (start_transcription self cb up) w = Returned (start_succeeds up)
  ∧ final_transcript s' = EmptyString
  ∧ last_interim s' = EmptyString
  ∧ callback s' = Some cb
  ∧ active s' = active s || start_succeeds up
  ∧ (start_succeeds up = true → audio_of s' = []).
Proof.
  intros s s'. subst s s'. unfold exec, eval.
  rewrite start_transcription_spec. simpl. rewrite service_at_with_service.
  destruct up as [msg | [[|] | msg]]; simpl;
    rewrite ?orb_true_r, ?orb_false_r; repeat split; done.
Qed.

Lemma start_transcription_outcome_witness :
  audio_of (service_at
              (exec (start_transcription 0 Sample.sid (Connected (StartReturns true)))
                 Sample.dictated) 0) = [].
Proof.
  destruct (start_transcription_outcome 0 Sample.sid
              (Connected (StartReturns true)) Sample.dictated)
    as (_ & _ & _ & _ & _ & Haudio).
  exact (Haudio eq_refl).
Defined.

Lemma reset_spec (self : nat) (w : world) :
  reset self w = (Returned tt, with_service self (λ _, new_service) w).
Proof.
  unfold reset. unfold_py. rewrite !with_service_twice. reflexivity.
Qed.

(** X4. [reset] puts the service back into the state [__init__] leaves:
    no connection, no callback, empty transcripts, inactive; a [finish]
    right after it returns the empty string. Results that arrive afterwards
    are not forwarded to any client and change no session, but their final
    texts are recorded again: a [finish] after them returns those texts,
    each followed by one space, concatenated and stripped. *)
Theorem reset_restores_constructor_state (self : nat) (w : world)
    (rs : list dg_result) (raises : option string) :
  let w1 := exec (reset self) w in
  let w2 := run (Transcript self <$> rs) w1 in
  service_at w1 self = new_service
  ∧ emitted w2 = emitted w
  ∧ active_transcriptions w2 = active_transcriptions w
  ∧ eval (finish self raises) w1 = Returned EmptyString
  ∧ eval (finish self raises) w2
    = Returned (PyStr.strip
                  (spaced_concat (final_texts (omap transcript_event rs)))).
Proof.
  intros w1 w2. subst w1 w2. unfold exec, eval. rewrite reset_spec. simpl.
  assert (Hnew : service_at (with_service self (λ _, new_service) w) self
                 = new_service) by apply service_at_with_service.
  split; [done|].
  destruct (run_transcripts_silent self rs
              (with_service self (λ _, new_service) w)) as (Hem & Hreg & _).
  split; [done|]. split; [done|]. split.
  - by rewrite finish_spec, Hnew.
  - by rewrite finish_spec, run_transcripts_final, Hnew.
Qed.

(** X7. Once a session was stopped or disconnected, results that still
    arrive on its service emit nothing, do not recreate the session and
    write no file; only the service's own transcript keeps growing. *)
Theorem results_after_session_end_are_dropped (sid : string) (sd : session_data)
    (rs : list dg_result) (w : world) :
  active_transcriptions w !! sid = Some sd →
  callback (service_at w (service sd)) = Some sid →
  ∀ w1 : world,
    (∃ env, w1 = exec (handle_stop_live_transcription sid env) w)
    ∨ (∃ raises, w1 = exec (handle_disconnect sid raises) w) →
    let w2 := run (Transcript (service sd) <$> rs) w1 in
    emitted w2 = emitted w1
    ∧ active_transcriptions w2 = active_transcriptions w1
    ∧ files w2 = files w1
    ∧ final_transcript (service_at w2 (service sd))
      = final_transcript (service_at w (service sd))
        +:+ spaced_concat (final_texts (omap transcript_event rs)).
Proof.
  intros Hsd Hcb w1 Hend w2.
  assert (Hfin : final_transcript (service_at w1 (service sd))
                 = final_transcript (service_at w (service sd))).
  { destruct Hend as [[env ->] | [raises ->]]; unfold exec.
    - rewrite (handle_stop_active _ _ env _ Hsd). simpl.
      unfold stop_files. destruct (stop_summary _ env); simpl;
        unfold service_at; simpl; rewrite lookup_insert_eq; done.
    - rewrite (handle_disconnect_active _ _ _ _ Hsd). simpl.
      unfold service_at; simpl. by rewrite lookup_insert_eq. }
  destruct (run_transcripts_silent (service sd) rs w1) as (Hem & Hreg & Hfiles).
  subst w2. split; [done|]. split; [done|]. split; [done|].
  by rewrite run_transcripts_final, Hfin.
Qed.

Lemma results_after_session_end_are_dropped_witness :
  emitted (run [Transcript 0 (text_result "late words" true)]
             (exec (handle_disconnect Sample.sid None) Sample.dictated))
  = emitted (exec (handle_disconnect Sample.sid None) Sample.dictated).
Proof.
  assert (Hcb : callback (service_at Sample.dictated (service Sample.session))
                = Some Sample.sid)
    by (vm_compute; reflexivity).
  exact (proj1 (results_after_session_end_are_dropped Sample.sid _
                  [text_result "late words" true] Sample.dictated
                  dictated_session Hcb _ (or_intror (ex_intro _ None eq_refl)))).
Defined.

(** ** Upstream results *)

Lemma last_interim_note_event ev s :
  last_interim (note_event ev s) = if ev.2 then EmptyString else ev.1.
Proof. unfold note_event. by destruct ev as [t [|]]. Qed.

Lemma run_without_events (svc : nat) (rs : list dg_result) : ∀ w : world,
  omap transcript_event rs = [] → run (Transcript svc <$> rs) w = w.
Proof.
  induction rs as [|r rs IH]; intros w Hrs; [done|].
  rewrite omap_transcript_cons in Hrs.
  rewrite fmap_cons, run_cons, step_transcript.
  destruct (transcript_event r); [done | by apply IH].
Qed.

(** X6. After a run of results whose last transcript event has text [t],
    [last_interim] of the service is [t] when that event is interim and
    empty when it is final. *)
Theorem interim_text_follows_last_event (svc : nat) (rs : list dg_result)
    (evs : list (string * bool)) (t : string) (final : bool) (w : world) :
  omap transcript_event rs = evs ++ [(t, final)] →
  last_interim (service_at (run (Transcript svc <$> rs) w) svc)
  = if final then EmptyString else t.
Proof.
  revert w evs. induction rs as [|r rs IH]; intros w evs Hevs.
  - by destruct evs.
  - rewrite omap_transcript_cons in Hevs.
    rewrite fmap_cons, run_cons, step_transcript.
    destruct (transcript_event r) as [ev|] eqn:Hr; [|by apply (IH w evs)].
    destruct (omap transcript_event rs) as [|ev' evs'] eqn:Hrest.
    + (* [r] carries the last event *)
      destruct evs as [|? [|? ?]]; simplify_eq/=.
      rewrite (run_without_events svc rs _ Hrest).
      unfold received. rewrite service_at_with_service.
      apply last_interim_note_event.
    + destruct evs as [|ev0 evs0]; [by destruct evs'|]. simplify_eq/=.
      by apply (IH (received svc ev0 w) evs0).
Qed.

Lemma interim_text_follows_last_event_witness :
  last_interim (service_at
                  (run (Transcript 0 <$> [text_result "patient" false;
                                          text_result "patient reports" false])
                     Sample.listening) 0)
  = "patient reports".
Proof.
  exact (interim_text_follows_last_event 0
           [text_result "patient" false; text_result "patient reports" false]
           [("patient", false)] "patient reports" false Sample.listening
           eq_refl).
Defined.

(** ** Audio chunks and rejected starts *)

(** X9. [handle_audio_chunk] never raises and never answers: whatever the
    payload, the outcome of the base64 decoding and of the send, it emits no
    event, leaves the registry and the files alone and changes no
    transcript, [active] flag or callback of any service. *)
Theorem audio_chunk_is_silent (sid : string) (data : payload) (env : audio_env)
    (w : world) :
  let w' := exec (handle_audio_chunk sid data env) w in
  eval (handle_audio_chunk sid data env) w = Returned tt
  ∧ emitted w' = emitted w
  ∧ active_transcriptions w' = active_transcriptions w
  ∧ files w' = files w
  ∧ ∀ a, final_transcript (service_at w' a) = final_transcript (service_at w a)
         ∧ active (service_at w' a) = active (service_at w a)
         ∧ callback (service_at w' a) = callback (service_at w a).
Proof.
  intros w'. subst w'. unfold exec, eval. rewrite handle_audio_chunk_spec. simpl.
  split; [done|].
  destruct (active_transcriptions w !! sid) as [sd|]; [|done].
  destruct (forwarded_chunk (data, env)) as [b|]; [|done].
  destruct (live_service _); [|done]. simpl.
  split; [done|]. split; [done|]. split; [done|].
  intros a. rewrite service_at_with_service_cases. case_decide; [|done].
  destruct (forward_keeps_transcript b (service_at w a)) as (-> & _ & -> & -> & _).
  done.
Qed.

(** X11. When the upstream did not start, the start is still answered
    [transcription_started], and every audio chunk sent afterwards is
    dropped: the handler returns normally and the state stays as it was. *)
Theorem audio_after_failed_start_is_dropped (sid key : string)
    (d : gmap string string) (env : start_env) (data : payload)
    (aenv : audio_env) (w : world) :
  api_key env = Some key → PyStr.truthy key = true →
  start_succeeds (upstream env) = false →
  let w1 := exec (handle_start_live_transcription sid (PDict d) env) w in
  emitted_since w w1 = [(sid, transcription_started)]
  ∧ handle_audio_chunk sid data aenv w1 = (Returned tt, w1).
Proof.
  intros Hkey Htruthy Hfail w1.
  destruct (start_accepts sid key d env w Hkey Htruthy) as (_ & Hem & Hreg & Hsvc).
  fold w1 in Hem, Hreg, Hsvc. split; [done|].
  rewrite handle_audio_chunk_spec, Hreg, lookup_insert_eq. simpl.
  rewrite Hsvc. unfold live_service.
  destruct (forwarded_chunk (data, aenv)); [|done].
  destruct (upstream env) as [msg | [[|] | msg]]; simpl in *; done.
Qed.

Lemma audio_after_failed_start_is_dropped_witness :
  let w1 := exec (handle_start_live_transcription Sample.sid (PDict Sample.en_US)
                    (Sample.started_with (Connected (StartReturns false))))
              empty_world in
  handle_audio_chunk Sample.sid (PDict ∅) Sample.chunk w1 = (Returned tt, w1).
Proof.
  exact (proj2 (audio_after_failed_start_is_dropped Sample.sid "dg-key"
                  Sample.en_US
                  (Sample.started_with (Connected (StartReturns false)))
                  (PDict ∅) Sample.chunk empty_world eq_refl eq_refl eq_refl)).
Defined.

(** X12. A start whose payload has no [get], or for which
    [DEEPGRAM_API_KEY] is unset or empty, is answered by exactly one
    [live_transcription_error] carrying the text of the exception; nothing
    else changes, so no session is registered and a session the identifier
    already has is kept. *)
Theorem rejected_start_changes_nothing (sid : string) (data : payload)
    (env : start_env) (w : world) :
  data = PNone ∨ api_key env = None ∨ api_key env = Some EmptyString →
  handle_start_live_transcription sid data env w
  = (Returned tt,
     with_emitted sid
       (live_transcription_error
          (StrOf match data with
                 | PNone =>
                     AttributeError "'NoneType' object has no attribute 'get'"
                 | PDict _ => RuntimeError "DEEPGRAM_API_KEY missing"
                 end)) w).
Proof.
  intros Hbad. unfold handle_start_live_transcription, payload_get.
  destruct data as [|d]; [reflexivity|].
  destruct Hbad as [Hbad | [Hkey | Hkey]]; [done| |];
    unfold DeepgramService_init; rewrite Hkey; reflexivity.
Qed.

Lemma rejected_start_changes_nothing_witness :
  active_transcriptions
    (exec (handle_start_live_transcription Sample.sid PNone Sample.live)
       Sample.dictated)
  = active_transcriptions Sample.dictated.
Proof.
  unfold exec.
  rewrite (rejected_start_changes_nothing Sample.sid PNone Sample.live
             Sample.dictated (or_introl eq_refl)).
  reflexivity.
Defined.

(** ** Isolation of the connections *)

(** X13. No event changes the registry entry of a connection other than
    the one it is addressed to: the sender of a client event, the owner of
    the callback for an upstream result. *)
Theorem other_sessions_are_untouched (i : input) (w : world) (other : string) :
  addressee i w ≠ Some other →
  active_transcriptions (exec (step i) w) !! other
  = active_transcriptions w !! other.
Proof.
  intros Hother. destruct i as [sid | sid raises | sid data env | sid data env
                               | sid env | svc r]; simpl in Hother.
  - done.
  - simpl step. rewrite exec_handle_disconnect_cases.
    destruct (active_transcriptions w !! sid); [|done]. simpl.
    apply lookup_delete_ne. congruence.
  - simpl step.
    destruct (exec_handle_start_cases sid data env w) as [[e ->] | [d ->]];
      [done|]. simpl. apply lookup_insert_ne. congruence.
  - simpl step.
    by destruct (exec_handle_audio_chunk_cases sid data env w)
      as [-> | (a & b & ->)].
  - simpl step. pose proof (exec_handle_stop_cases sid env w) as Hstop.
    destruct (active_transcriptions w !! sid) as [sd|]; rewrite Hstop; [|done].
    by destruct (stop_files_projections
                   (PyStr.strip (final_transcript (service_at w (service sd))))
                   env (with_service (service sd) (set_active false) w))
      as (-> & _).
  - by destruct (exec_transcript_cases svc r w) as [-> | [ev ->]].
Qed.

Lemma other_sessions_are_untouched_witness :
  active_transcriptions
    (exec (step (StopLive "sid-2" (Sample.stopped_with (GeminiText Sample.reply))))
       Sample.dictated) !! Sample.sid
  = active_transcriptions Sample.dictated !! Sample.sid.
Proof.
  apply (other_sessions_are_untouched
           (StopLive "sid-2" (Sample.stopped_with (GeminiText Sample.reply)))
           Sample.dictated Sample.sid).
  simpl. discriminate.
Defined.

(** X14. Every step only appends to the log of emitted events, and each
    event it emits goes to the room of the connection the input is
    addressed to; an upstream result on a service without callback emits
    nothing. *)
Theorem events_go_to_the_addressee (i : input) (w : world) :
  ∃ new, emitted (exec (step i) w) = emitted w ++ new
         ∧ ∀ room ev, (room, ev) ∈ new → addressee i w = Some room.
Proof.
  destruct i as [sid | sid raises | sid data env | sid data env
                | sid env | svc r]; simpl addressee.
  - exists [(sid, connection_status)]. split; [done|].
    intros room ev Hin. apply list_elem_of_singleton in Hin. by simplify_eq.
  - exists []. rewrite app_nil_r. split; [|by intros ? ? ?%elem_of_nil].
    simpl step. rewrite exec_handle_disconnect_cases.
    by destruct (active_transcriptions w !! sid).
  - simpl step.
    destruct (exec_handle_start_cases sid data env w) as [[e ->] | [d ->]];
      eexists; (split; [reflexivity|]);
      intros room ev Hin; apply list_elem_of_singleton in Hin; by simplify_eq.
  - exists []. rewrite app_nil_r. split; [|by intros ? ? ?%elem_of_nil].
    simpl step.
    by destruct (exec_handle_audio_chunk_cases sid data env w)
      as [-> | (a & b & ->)].
  - simpl step. pose proof (exec_handle_stop_cases sid env w) as Hstop.
    destruct (active_transcriptions w !! sid) as [sd|]; rewrite Hstop.
    + exists []. rewrite app_nil_r. split; [|by intros ? ? ?%elem_of_nil].
      by destruct (stop_files_projections
                     (PyStr.strip (final_transcript (service_at w (service sd))))
                     env (with_service (service sd) (set_active false) w))
        as (_ & -> & _).
    + eexists. split; [reflexivity|].
      intros room ev Hin. apply list_elem_of_singleton in Hin. by simplify_eq.
  - exists []. rewrite app_nil_r. split; [|by intros ? ? ?%elem_of_nil].
    by destruct (exec_transcript_cases svc r w) as [-> | [ev ->]].
Qed.

(** ** The end of a session *)

(** X15. A stop of an active session writes the transcript file exactly
    when the start-up of the model, the summary and the write all succeed:
    then the one file added is [recordings/live_<timestamp>.txt] and holds
    the stripped final transcript. When one of the three raises, no
    transcript file is added. *)
Theorem transcript_file_needs_the_summary (sid : string) (sd : session_data)
    (env : stop_env) (w : world) :
  active_transcriptions w !! sid = Some sd →
  let w' := exec (handle_stop_live_transcription sid env) w in
  let text := PyStr.strip (final_transcript (service_at w (service sd))) in
  let file := "recordings/live_" +:+ timestamp env +:+ ".txt" in
  (∃ summary,
     files w' = files w ++ [(file, text)]
     ∧ gemini_init_raises env = None ∧ write_raises env = None
     ∧ generate_structured_medical_summary (gemini env) text = Returned summary)
  ∨ (files w' = files w
     ∧ (is_Some (gemini_init_raises env) ∨ is_Some (write_raises env)
        ∨ ∃ e, generate_structured_medical_summary (gemini env) text
               = Raised e)).
Proof.
  intros Hsd w' text file. subst w'. unfold exec.
  rewrite (handle_stop_active _ _ env _ Hsd). fold text. simpl snd.
  unfold stop_files, stop_summary, recording_file_of. fold file.
  destruct (gemini_init_raises env); [right; eauto|].
  destruct (generate_structured_medical_summary _ _); [|right; eauto].
  destruct (write_raises env); [right; eauto|].
  left. eexists. repeat split; done.
Qed.

Lemma transcript_file_needs_the_summary_witness :
  files (exec (handle_stop_live_transcription Sample.sid
                 (Sample.stopped_with (GeminiRaises "503 unavailable")))
           Sample.dictated)
  = files Sample.dictated.
Proof.
  destruct (transcript_file_needs_the_summary Sample.sid _
              (Sample.stopped_with (GeminiRaises "503 unavailable"))
              Sample.dictated dictated_session)
    as [(summary & _ & _ & _ & Hsum) | (Hfiles & _)].
  - discriminate Hsum.
  - exact Hfiles.
Defined.

(** X17. A disconnect emits no event and writes no file; when the
    identifier had a session, its service is deactivated and exactly that
    entry is removed, so the transcript dictated so far is delivered to
    nobody. *)
Theorem disconnect_discards_the_transcript (sid : string)
    (raises : option string) (w : world) :
  let w' := exec (handle_disconnect sid raises) w in
  emitted w' = emitted w
  ∧ files w' = files w
  ∧ ∀ sd, active_transcriptions w !! sid = Some sd →
          active (service_at w' (service sd)) = false
          ∧ active_transcriptions w' = delete sid (active_transcriptions w).
Proof.
  intros w'. subst w'. rewrite exec_handle_disconnect_cases.
  destruct (active_transcriptions w !! sid) as [sd|]; [|done]. simpl.
  split; [done|]. split; [done|]. intros sd' [= <-]. split; [|done].
  unfold service_at. simpl. by rewrite lookup_insert_eq.
Qed.

Lemma disconnect_discards_the_transcript_witness :
  active (service_at (exec (handle_disconnect Sample.sid None) Sample.dictated)
            (service Sample.session))
  = false.
Proof.
  destruct (disconnect_discards_the_transcript Sample.sid None Sample.dictated)
    as (_ & _ & Hsession).
  exact (proj1 (Hsession _ dictated_session)).
Defined.

(** ** The summary parser, further *)

Lemma substring_prefix (s : string) : ∀ k : nat,
  ∃ rest, s = substring 0 k s +:+ rest
          ∧ String.length (substring 0 k s) = Nat.min k (String.length s).
Proof.
  induction s as [|c s IH]; intros [|k]; simpl.
  - by exists EmptyString.
  - by exists EmptyString.
  - by exists (String c s).
  - destruct (IH k) as (rest & Hrest & Hlen). exists rest.
    rewrite append_cons, <- Hrest, Hlen. done.
Qed.

Lemma slice_from_start (s : string) (n : nat) :
  PyStr.slice s 0 (Z.of_nat n) = substring 0 (Nat.min n (String.length s)) s.
Proof.
  unfold PyStr.slice, PyStr.clamp. simpl.
  replace (0 `min` Z.of_nat (String.length s))%Z with 0%Z by lia.
  replace (Z.of_nat n <? 0)%Z with false by (symmetry; apply Z.ltb_ge; lia).
  rewrite Z.sub_0_r, <- Nat2Z.inj_min, Nat2Z.id. done.
Qed.

(** X18. When the reply lacks an opening or a closing brace, the summary
    field of the fallback dict is a prefix of the transcript of length
    min(200, length of the transcript), next to the three fixed
    placeholders. *)
Theorem fallback_summary_is_transcript_prefix (reply translation : string) :
  PyStr.index_of "{" (PyStr.strip reply) = None
  ∨ PyStr.rindex_of "}" (PyStr.strip reply) = None →
  ∃ excerpt rest : string,
    generate_structured_medical_summary (GeminiText reply) translation
    = Returned (JObject [("summary", JString excerpt);
                         ("medical_condition", JString "Not extracted");
                         ("treatment_plan", JString "Not extracted");
                         ("followup_date", JString "Not specified")])
    ∧ translation = excerpt +:+ rest
    ∧ String.length excerpt = Nat.min 200 (String.length translation).
Proof.
  intros Hbrace.
  destruct (substring_prefix translation (Nat.min 200 (String.length translation)))
    as (rest & Hrest & Hlen).
  exists (substring 0 (Nat.min 200 (String.length translation)) translation), rest.
  split; [|split; [done | lia]].
  rewrite summary_parser_equation. simpl.
  unfold fallback_summary.
  change 200%Z with (Z.of_nat 200). rewrite (slice_from_start translation 200).
  destruct Hbrace as [-> | ->]; [done|].
  by destruct (PyStr.index_of "{" (PyStr.strip reply)).
Qed.

Lemma fallback_summary_is_transcript_prefix_witness :
  ∃ excerpt rest : string,
    generate_structured_medical_summary
      (GeminiText "I cannot summarise this.") "patient reports fever"
    = Returned (JObject [("summary", JString excerpt);
                         ("medical_condition", JString "Not extracted");
                         ("treatment_plan", JString "Not extracted");
                         ("followup_date", JString "Not specified")])
    ∧ "patient reports fever" = excerpt +:+ rest
    ∧ String.length excerpt = Nat.min 200 (String.length "patient reports fever").
Proof.
  exact (fallback_summary_is_transcript_prefix "I cannot summarise this."
           "patient reports fever" (or_introl eq_refl)).
Defined.

Lemma scan_members_object (fuel : nat) : ∀ s acc v r,
  Json.scan_members fuel s acc = Some (v, r) → is_object v.
Proof.
  induction fuel as [|fuel IH]; intros s acc v r; [done|].
  simpl. intros H.
  repeat (simplify_option_eq || case_match); try done;
    try (by eexists); eauto.
Qed.

Lemma scan_value_brace_object (fuel : nat) (r : string) (v : json) (rest : string) :
  Json.scan_value fuel (String "{" r) = Some (v, rest) → is_object v.
Proof.
  destruct fuel as [|fuel]; [done|]. simpl.
  destruct (Json.skip_ws r) as [|c r'] eqn:Hr.
  - apply scan_members_object.
  - intros H. repeat case_match; simplify_eq;
      try (by eexists); by eapply scan_members_object.
Qed.

Lemma loads_brace_object (r : string) (v : json) :
  Json.loads (String "{" r) = Some v → is_object v.
Proof.
  unfold Json.loads. change (Json.skip_ws (String "{" r)) with (String "{" r).
  destruct (Json.scan_value _ _) as [[v' rest]|] eqn:Hscan; [|done].
  intros H. apply scan_value_brace_object in Hscan.
  by destruct (Json.skip_ws rest); simplify_eq.
Qed.

(** What starts at the position [index_of] finds. *)
Lemma substring_at_index (c : ascii) (s : string) : ∀ i n,
  PyStr.index_of c s = Some i →
  substring i n s = EmptyString ∨ ∃ r, substring i n s = String c r.
Proof.
  induction s as [|a s IH]; intros i n Hi; [done|].
  simpl in Hi. destruct (Ascii.eqb a c) eqn:Hac.
  - apply Ascii.eqb_eq in Hac. simplify_eq. simpl.
    destruct n; [by left | right; eauto].
  - destruct (PyStr.index_of c s) as [i'|] eqn:Hi'; simplify_eq/=.
    by apply IH.
Qed.

Lemma index_of_lt (c : ascii) (s : string) : ∀ i,
  PyStr.index_of c s = Some i → i < String.length s.
Proof.
  induction s as [|a s IH]; intros i Hi; [done|].
  simpl in *. destruct (Ascii.eqb a c); simplify_eq/=; [lia|].
  destruct (PyStr.index_of c s) as [i'|]; simplify_eq/=.
  specialize (IH i' eq_refl). lia.
Qed.

Lemma slice_at_index (c : ascii) (s : string) (i : nat) (j : Z) :
  PyStr.index_of c s = Some i →
  PyStr.slice s (Z.of_nat i) j = EmptyString
  ∨ ∃ r, PyStr.slice s (Z.of_nat i) j = String c r.
Proof.
  intros Hi. pose proof (index_of_lt c s i Hi) as Hlt.
  assert (Hlo : PyStr.clamp (Z.of_nat (String.length s)) (Z.of_nat i)
                = Z.of_nat i).
  { unfold PyStr.clamp.
    replace (Z.of_nat i <? 0)%Z with false by (symmetry; apply Z.ltb_ge; lia).
    lia. }
  unfold PyStr.slice. simpl. rewrite Hlo.
  rewrite Nat2Z.id. by apply substring_at_index.
Qed.

(** X19. Whenever [generate_structured_medical_summary] returns, it
    returns a dict: the text handed to the decoder starts at the first
    opening brace, so no list, string, number or constant can come out. *)
Theorem summary_is_always_a_dict (reply : gemini_reply) (translation : string)
    (summary : json) :
  generate_structured_medical_summary reply translation = Returned summary →
  ∃ members, summary = JObject members.
Proof.
  destruct reply as [msg | text]; [done|].
  rewrite summary_parser_equation. simpl.
  destruct (PyStr.index_of "{" (PyStr.strip text)) as [i|] eqn:Hi;
    [|intros [= <-]; by eexists].
  destruct (PyStr.rindex_of "}" (PyStr.strip text)) as [j|];
    [|intros [= <-]; by eexists].
  destruct (slice_at_index "{" _ i (Z.of_nat j + 1) Hi) as [-> | [r ->]].
  - done.
  - destruct (Json.loads (String "{" r)) as [v|] eqn:Hloads; [|done].
    intros [= <-]. by apply (loads_brace_object r).
Qed.

Lemma summary_is_always_a_dict_witness :
  ∃ members,
    JObject [("summary", JString "Patient reports fever");
             ("medical_condition", JString "Fever");
             ("treatment_plan", JString "Not specified");
             ("followup_date", JString "Not specified")]
    = JObject members.
Proof.
  exact (summary_is_always_a_dict (GeminiText Sample.reply)
           "patient reports fever" _ sample_reply_parses).
Defined.

Lemma length_append (a b : string) :
  String.length (a +:+ b) = String.length a + String.length b.
Proof. induction a as [|x a IH]; [done|]. rewrite append_cons. simpl. by rewrite IH. Qed.

Lemma lstrip_app (b : string) (c : ascii) (r : string) :
  PyStr.isspace c = false →
  PyStr.lstrip (b +:+ String c r) = PyStr.lstrip b +:+ String c r.
Proof.
  intros Hc. induction b as [|x b IH].
  - simpl. by rewrite Hc.
  - rewrite append_cons. simpl. destruct (PyStr.isspace x); [exact IH|].
    by rewrite append_cons.
Qed.

Lemma index_of_lstrip (c : ascii) (b : string) :
  PyStr.index_of c b = None → PyStr.index_of c (PyStr.lstrip b) = None.
Proof.
  induction b as [|x b IH]; [done|]. intros Hb. simpl in Hb.
  destruct (Ascii.eqb x c) eqn:Hx; [done|].
  destruct (PyStr.index_of c b) eqn:Hi; [done|].
  simpl. destruct (PyStr.isspace x); [by apply IH|].
  simpl. by rewrite Hx, Hi.
Qed.

Lemma rstrip_app (s : string) (c : ascii) (a : string) :
  PyStr.isspace c = false →
  PyStr.rstrip (s +:+ String c a) = s +:+ String c (PyStr.rstrip a).
Proof.
  intros Hc. induction s as [|x s IH].
  - simpl. destruct (PyStr.rstrip a); [by rewrite Hc | done].
  - rewrite !append_cons. simpl. rewrite IH.
    by destruct s.
Qed.

Lemma rindex_of_rstrip (c : ascii) (a : string) :
  PyStr.rindex_of c a = None → PyStr.rindex_of c (PyStr.rstrip a) = None.
Proof.
  induction a as [|x a IH]; [done|]. intros Ha. simpl in Ha.
  destruct (PyStr.rindex_of c a) eqn:Hi; [done|].
  destruct (Ascii.eqb x c) eqn:Hx; [done|].
  specialize (IH eq_refl). simpl.
  destruct (PyStr.rstrip a) as [|y r] eqn:Hr.
  - destruct (PyStr.isspace x); [done|]. simpl. by rewrite Hx.
  - simpl in *. destruct (PyStr.rindex_of c r); [done|].
    destruct (Ascii.eqb y c); [done|]. by rewrite Hx.
Qed.

Lemma index_of_app (c : ascii) (p r : string) :
  PyStr.index_of c p = None →
  PyStr.index_of c (p +:+ String c r) = Some (String.length p).
Proof.
  induction p as [|x p IH]; intros Hp.
  - simpl. by rewrite Ascii.eqb_refl.
  - rewrite append_cons. simpl in *.
    destruct (Ascii.eqb x c); [done|].
    destruct (PyStr.index_of c p); [done|]. by rewrite IH.
Qed.

Lemma rindex_of_app (c : ascii) (s a : string) :
  PyStr.rindex_of c a = None →
  PyStr.rindex_of c (s +:+ String c a) = Some (String.length s).
Proof.
  intros Ha. induction s as [|x s IH].
  - simpl. by rewrite Ha, Ascii.eqb_refl.
  - rewrite append_cons. simpl. by rewrite IH.
Qed.

Lemma substring_head (m q : string) :
  substring 0 (String.length m) (m +:+ q) = m.
Proof.
  induction m as [|y m IHm]; [by destruct q|].
  rewrite append_cons. simpl. by rewrite IHm.
Qed.

Lemma substring_middle (p m q : string) :
  substring (String.length p) (String.length m) (p +:+ m +:+ q) = m.
Proof.
  induction p as [|x p IH]; [exact (substring_head m q)|].
  rewrite append_cons. simpl. exact IH.
Qed.

Lemma slice_middle (p m q : string) :
  PyStr.slice (p +:+ m +:+ q) (Z.of_nat (String.length p))
    (Z.of_nat (String.length p + String.length m))
  = m.
Proof.
  unfold PyStr.slice, PyStr.clamp. rewrite !length_append.
  replace (Z.of_nat (String.length p) <? 0)%Z with false
    by (symmetry; apply Z.ltb_ge; lia).
  replace (Z.of_nat (String.length p + String.length m) <? 0)%Z with false
    by (symmetry; apply Z.ltb_ge; lia).
  simpl.
  replace (Z.to_nat (Z.of_nat (String.length p)
                     `min` Z.of_nat (String.length p
                                     + (String.length m + String.length q))))
    with (String.length p) by lia.
  replace (Z.to_nat _) with (String.length m) by lia.
  apply substring_middle.
Qed.

Lemma braces_assoc (p inner a : string) :
  p +:+ String "{" (inner +:+ "}") +:+ a
  = (p +:+ String "{" inner) +:+ String "}" a.
Proof. by rewrite (append_assoc p), !append_cons, append_assoc. Qed.

(** X20. Text before the first opening brace and after the last closing
    brace of the reply does not matter: the outcome is that of decoding
    the brace-delimited body alone, also through the surrounding white
    space that [strip] removes. *)
Theorem text_around_braces_is_ignored
    (before inner after translation : string) :
  PyStr.index_of "{" before = None →
  PyStr.rindex_of "}" after = None →
  let body := String "{" (inner +:+ "}") in
  generate_structured_medical_summary
    (GeminiText (before +:+ body +:+ after)) translation
  = match Json.loads body with
    | Some summary => Returned summary
    | None => Raised JSONDecodeError
    end.
Proof.
  intros Hbefore Hafter body.
  set (p := PyStr.lstrip before). set (q := PyStr.rstrip after).
  assert (Htext : PyStr.strip (before +:+ body +:+ after) = p +:+ body +:+ q).
  { unfold PyStr.strip, body. rewrite append_cons, lstrip_app by done.
    fold p. rewrite <- append_cons, !braces_assoc.
    by rewrite rstrip_app. }
  rewrite summary_parser_equation. simpl. rewrite Htext.
  assert (Hi : PyStr.index_of "{" (p +:+ body +:+ q) = Some (String.length p)).
  { unfold body. rewrite append_cons. apply index_of_app.
    by apply index_of_lstrip. }
  assert (Hj : PyStr.rindex_of "}" (p +:+ body +:+ q)
               = Some (String.length p + String.length inner + 1)).
  { unfold body. rewrite braces_assoc.
    rewrite rindex_of_app by (by apply rindex_of_rstrip).
    rewrite length_append. simpl. f_equal. lia. }
  rewrite Hi, Hj.
  replace (Z.of_nat (String.length p + String.length inner + 1) + 1)%Z
    with (Z.of_nat (String.length p + String.length body)).
  - by rewrite slice_middle.
  - unfold body. simpl. rewrite length_append. simpl. lia.
Qed.

Lemma text_around_braces_is_ignored_witness :
  generate_structured_medical_summary
    (GeminiText ("Sure. " +:+ String "{" (Sample.quoted "summary" +:+ ": "
                   +:+ Sample.quoted "fever" +:+ "}") +:+ " Anything else?"))
    "patient reports fever"
  = Returned (JObject [("summary", JString "fever")]).
Proof.
  refine (eq_trans
            (text_around_braces_is_ignored "Sure. "
               (Sample.quoted "summary" +:+ ": " +:+ Sample.quoted "fever")
               " Anything else?" "patient reports fever" eq_refl eq_refl) _).
  vm_compute. reflexivity.
Defined.

(** ** The record routes *)

Lemma lookup_assign_eq (k : string) (v : pyval) (d : list (string * pyval)) :
  Doc.lookup k (Doc.assign k v d) = Some v.
Proof.
  induction d as [|[k' v'] d IH]; simpl.
  - by rewrite String.eqb_refl.
  - destruct (String.eqb k' k) eqn:Hk; simpl; by rewrite Hk.
Qed.

Lemma lookup_assign_ne (k k' : string) (v : pyval) (d : list (string * pyval)) :
  k ≠ k' → Doc.lookup k' (Doc.assign k v d) = Doc.lookup k' d.
Proof.
  intros Hne. induction d as [|[k0 v0] d IH]; simpl.
  - by rewrite (proj2 (String.eqb_neq k k')).
  - destruct (String.eqb k0 k) eqn:Hk; simpl.
    + apply String.eqb_eq in Hk. subst k0.
      by rewrite (proj2 (String.eqb_neq k k')).
    + by rewrite IH.
Qed.

Lemma get_returns (v : pyval) (k : string) (dflt x : pyval) :
  Doc.get v k dflt = Returned x →
  ∃ d, v = VDict d ∧ x = default dflt (Doc.lookup k d).
Proof. destruct v; simpl; intros; simplify_eq. eauto. Qed.

Lemma get_raises (v : pyval) (k : string) (dflt : pyval) :
  ¬ is_dict v → Doc.get v k dflt = Raised (Doc.no_attribute v "get").
Proof. intros Hv. destruct v; try done. destruct Hv. by eexists. Qed.

Lemma lookup_assign_is_Some (k k' : string) (v : pyval)
    (d : list (string * pyval)) :
  is_Some (Doc.lookup k d) → is_Some (Doc.lookup k (Doc.assign k' v d)).
Proof.
  intros Hk. destruct (decide (k' = k)) as [->|Hne].
  - rewrite lookup_assign_eq. by eexists.
  - by rewrite lookup_assign_ne.
Qed.

Lemma not_written (k : string) :
  k ∉ written_keys →
  k ≠ "timestamp" ∧ k ≠ "medical_condition" ∧ k ≠ "treatment_plan"
  ∧ k ≠ "followup_date" ∧ k ≠ "recording_path" ∧ k ≠ "original_transcript"
  ∧ k ≠ "english_transcript".
Proof.
  unfold written_keys. intros Hk.
  repeat (apply not_elem_of_cons in Hk as [? Hk]). repeat split; done.
Qed.

Ltac reduce_lookups H :=
  repeat first
    [ rewrite lookup_assign_eq in H
    | rewrite lookup_assign_ne in H by done
    | progress simpl in H ].

Ltac reduce_lookups_goal :=
  repeat first
    [ rewrite lookup_assign_eq
    | rewrite lookup_assign_ne by (done || congruence) ].

Section RouteFacts.
Variable strftime : nat → string.

Lemma decorate_raises (record : list (string * pyval)) (v : pyval) :
  Doc.lookup "summary_data" record = Some v → ¬ is_dict v →
  ∃ e, decorate strftime record = Raised e.
Proof.
  intros Hv Hnot. unfold decorate.
  destruct (Doc.lookup "timestamp" record) as [ts|]; simpl.
  - destruct (format_timestamp strftime ts) as [formatted|e]; simpl; [|eauto].
    rewrite lookup_assign_ne, Hv by done. rewrite !get_raises by done.
    simpl. eauto.
  - rewrite Hv, !get_raises by done. simpl. eauto.
Qed.

Lemma decorate_all_raises (records : list (list (string * pyval)))
    (record : list (string * pyval)) :
  record ∈ records → (∃ e, decorate strftime record = Raised e) →
  ∃ e, decorate_all strftime records = Raised e.
Proof.
  intros Hin [e He]. induction records as [|r rs IH]; [by apply elem_of_nil in Hin|].
  simpl. apply elem_of_cons in Hin as [<- | Hin].
  - rewrite He. simpl. eauto.
  - destruct (decorate strftime r); simpl; [|eauto].
    destruct (IH Hin) as [e' ->]. simpl. eauto.
Qed.

(** X21. When one record of the query result carries a [summary_data]
    that is not a dict, [api_get_patient_records] answers with the failure
    response for the whole request: no record is listed. *)
Theorem listing_fails_on_malformed_summary
    (records : list (list (string * pyval))) (record : list (string * pyval))
    (v : pyval) (patient_id : string) :
  record ∈ records →
  Doc.lookup "summary_data" record = Some v → ¬ is_dict v →
  ∃ e, api_get_patient_records strftime (Some (Returned records)) patient_id
       = ListingFailed e.
Proof.
  intros Hin Hv Hnot. unfold api_get_patient_records. simpl.
  destruct (decorate_all_raises records record Hin
              (decorate_raises record v Hv Hnot)) as [e ->].
  eauto.
Qed.

Lemma save_record_returns (d : list (string * pyval)) (utcnow : nat) :
  save_record (VDict d) utcnow
  = Returned [("patient_id", default VNone (Doc.lookup "patient_id" d));
              ("doctor_id", default VNone (Doc.lookup "doctor_id" d));
              ("recording_file", default VNone (Doc.lookup "recording_file" d));
              ("transcript", default VNone (Doc.lookup "transcript" d));
              ("translation", default VNone (Doc.lookup "translation" d));
              ("summary_data", default VNone (Doc.lookup "summary_data" d));
              ("timestamp", VDatetime utcnow); ("tests", VDict [])].
Proof. reflexivity. Qed.

(** X23. [save] accepts a body without [summary_data] and stores [None]
    under that key; the listing of any query result that contains the
    stored record then fails. *)
Theorem saving_without_summary_breaks_listing
    (d : list (string * pyval)) (record_id patient_id : string) (utcnow : nat)
    (before after : list (list (string * pyval))) :
  Doc.lookup "summary_data" d = None →
  ∃ record,
    save (Some (Returned record_id)) (Returned (VDict d)) utcnow
    = Saved record_id record
    ∧ ∃ e, api_get_patient_records strftime
             (Some (Returned (before ++ record :: after))) patient_id
           = ListingFailed e.
Proof.
  intros Hmissing. eexists. split; [reflexivity|].
  unfold api_get_patient_records. simpl.
  match goal with
  | |- context [decorate_all strftime (before ++ ?record :: after)] =>
      destruct (decorate_all_raises (before ++ record :: after) record)
        as [e He]
  end.
  - apply elem_of_app. right. apply elem_of_cons. by left.
  - apply (decorate_raises _ VNone); [simpl; by rewrite Hmissing|].
    by intros [? ?].
  - rewrite He. eauto.
Qed.

Lemma decorate_keeps_fields (record record' : list (string * pyval)) :
  decorate strftime record = Returned record' → extends record record'.
Proof.
  intros H. unfold extends. unfold decorate in H.
  destruct (Doc.lookup "timestamp" record) as [ts|] eqn:Hts; simpl in H;
    [destruct (format_timestamp strftime ts) as [formatted|]; simpl in H;
       [|done]|];
    reduce_lookups H;
    (destruct (Doc.lookup "summary_data" record) as [[| | | | | |sd]|] eqn:Hsd;
       simpl in H; try done);
    reduce_lookups H;
    destruct (Doc.lookup "recording_file" record) as [rf|] eqn:Hrf;
    reduce_lookups H;
    destruct (Doc.lookup "transcript" record) as [tr|] eqn:Htr;
    reduce_lookups H;
    destruct (Doc.lookup "translation" record) as [tl|] eqn:Htl;
    reduce_lookups H;
    injection H as <-;
    (split; [intros k v Hk Hnot; apply not_written in Hnot;
             destruct Hnot as (? & ? & ? & ? & ? & ? & ?);
             reduce_lookups_goal; exact Hk|]);
    (split; [intros k Hk; repeat apply lookup_assign_is_Some; exact Hk|]);
    repeat split; intros v Hv; reduce_lookups_goal; congruence.
Qed.

Lemma decorate_all_forall2 (records records' : list (list (string * pyval))) :
  decorate_all strftime records = Returned records' →
  Forall2 (λ r r', decorate strftime r = Returned r') records records'.
Proof.
  revert records'. induction records as [|r rs IH]; intros records' H.
  - injection H as <-. constructor.
  - simpl in H. destruct (decorate strftime r) as [r'|] eqn:Hr; [|done].
    simpl in H. destruct (decorate_all strftime rs) as [rs'|]; [|done].
    injection H as <-. constructor; [done | by apply IH].
Qed.

(** X22. When [api_get_patient_records] lists, it answers for the
    requested patient with as many records as the query gave, in the same
    order; every record keeps all its keys and the values of the fields
    the listing does not write, and [recording_path],
    [original_transcript] and [english_transcript] repeat [recording_file],
    [transcript] and [translation]. *)
Theorem listing_keeps_fields (records records' : list (list (string * pyval)))
    (patient_id listed_id : string) :
  api_get_patient_records strftime (Some (Returned records)) patient_id
  = Listed listed_id records' →
  listed_id = patient_id
  ∧ List.length records' = List.length records
  ∧ Forall2 extends records records'.
Proof.
  unfold api_get_patient_records. simpl.
  destruct (decorate_all strftime records) as [rs'|] eqn:Hall; [|done].
  intros [= <- <-]. apply decorate_all_forall2 in Hall.
  split; [done|]. split; [symmetry; by eapply Forall2_length|].
  eapply Forall2_impl; [exact Hall|]. apply decorate_keeps_fields.
Qed.

End RouteFacts.

Lemma listing_fails_on_malformed_summary_witness :
  ∃ e, api_get_patient_records SampleRecord.strftime
         (Some (Returned [SampleRecord.stored;
                          [("patient_id", VStr "p-17");
                           ("summary_data", VStr "fever")]])) "p-17"
       = ListingFailed e.
Proof.
  apply (listing_fails_on_malformed_summary SampleRecord.strftime _
           [("patient_id", VStr "p-17"); ("summary_data", VStr "fever")]
           (VStr "fever") "p-17").
  - apply elem_of_cons. right. apply elem_of_cons. by left.
  - reflexivity.
  - by intros [? ?].
Defined.

Lemma saving_without_summary_breaks_listing_witness :
  ∃ record,
    save (Some (Returned "65c0ffee")) (Returned (VDict [("patient_id", VStr "p-17")])) 0
    = Saved "65c0ffee" record
    ∧ ∃ e, api_get_patient_records SampleRecord.strftime
             (Some (Returned ([SampleRecord.stored] ++ record :: []))) "p-17"
           = ListingFailed e.
Proof.
  exact (saving_without_summary_breaks_listing SampleRecord.strftime
           [("patient_id", VStr "p-17")] "65c0ffee" "p-17" 0
           [SampleRecord.stored] [] eq_refl).
Defined.

Example sample_record_is_saved :
  save (Some (Returned "65c0ffee")) (Returned (VDict SampleRecord.body)) 0
  = Saved "65c0ffee" SampleRecord.stored.
Proof. reflexivity. Qed.

Example sample_record_is_listed :
  api_get_patient_records SampleRecord.strftime
    (Some (Returned [SampleRecord.stored])) "p-17"
  = Listed "p-17" [SampleRecord.listed].
Proof. reflexivity. Qed.

Lemma listing_keeps_fields_witness :
  Forall2 extends [SampleRecord.stored] [SampleRecord.listed].
Proof.
  exact (proj2 (proj2 (listing_keeps_fields SampleRecord.strftime
                         [SampleRecord.stored] [SampleRecord.listed]
                         "p-17" "p-17" sample_record_is_listed))).
Defined.
